(** * Hierarchical Actor Critic tutorial agent (tutorials/3. Implementing a
      Hierarchical RL Graph.ipynb): a shallow embedding and its properties.

    The notebook defines [HACDDPGAlgorithmParameters], [HACDDPGAgentParameters]
    and [HACDDPGAgent] on top of the rl_coach library, then a two-level preset.
    Python objects are mutable and shared, so the agent's methods are embedded
    in a state-and-exception monad over a [World] holding the objects the
    methods can reach: the state dictionaries and the transitions (two heaps
    addressed by reference, so that aliasing between [transition.state],
    [transition.next_state] and other holders is visible), the agent, the graph
    manager and numpy's random generator. *)

From Stdlib Require Import QArith Qabs Floats.
From stdpp Require Import gmap strings list.

Local Open Scope Z_scope.
Local Open Scope string_scope.
Local Open Scope list_scope.

(** ** Python values, exceptions and results *)

Inductive exn : Type :=
  | AttributeError (attr : string)
  | KeyError (key : string)
  | TypeError
  | ValueError.

Inductive result (A : Type) : Type :=
  | Ok (a : A)
  | Raise (e : exn).
Arguments Ok {A} a.
Arguments Raise {A} e.

#[global] Instance result_ret : MRet result := fun A a => Ok a.

#[global] Instance result_bind : MBind result := fun A B f r =>
  match r with
  | Ok a => f a
  | Raise e => Raise e
  end.

(** Attribute values of parameter objects.  Numbers written with a decimal
    point are rationals; objects whose content plays no part here are opaque. *)
Inductive value : Type :=
  | VInt (z : Z)
  | VFloat (q : Q)
  | VBool (b : bool)
  | VNone
  | VObject (repr : string).

(** Numeric reading of a value, as Python arithmetic and comparison take it
    ([True] is 1, [False] is 0; [None] and other objects are a [TypeError]). *)
Definition as_number (v : value) : result Q :=
  match v with
  | VInt z => Ok (inject_Z z)
  | VFloat q => Ok q
  | VBool b => Ok (inject_Z (if b then 1 else 0))
  | VNone | VObject _ => Raise TypeError
  end.

(** Unary minus, [-v]. *)
Definition neg (v : value) : result Q :=
  q ← as_number v; mret (- q)%Q.

(** [a < b] on numbers. *)
Definition Qltb (a b : Q) : bool := negb (Qle_bool b a).

(** numpy arrays of numbers, and state dictionaries keyed by strings. *)
Abbreviation ndarray := (list Q).
Abbreviation dict := (gmap string (list Q)).
Abbreviation loc := positive.

(** ** rl_coach.core_types.RunPhase

    The notebook names [TRAIN] and [TEST]; the other members of the library's
    enumeration matter here only in that they are not [TRAIN]. *)

Inductive RunPhase : Type := HEATUP | TRAIN | TEST | UNDEFINED.

Definition RunPhase_eqb (a b : RunPhase) : bool :=
  match a, b with
  | HEATUP, HEATUP | TRAIN, TRAIN | TEST, TEST | UNDEFINED, UNDEFINED => true
  | _, _ => false
  end.

(** ** rl_coach.spaces: the interface of a goal space as the agent uses it *)

Module Spaces.

(** The two methods of [GoalsSpace] that the agent calls.  Both receive a goal
    and a state dictionary and may raise. *)
Record GoalsSpace : Type := {
  distance_from_goal : ndarray -> dict -> result ndarray;
  get_reward_for_goal_and_state : ndarray -> dict -> result (Q * bool)
}.

End Spaces.

(** ** Parameter objects *)

(** An algorithm- or memory-parameters object is its attribute dictionary:
    reading an attribute that was never assigned raises [AttributeError]. *)
Abbreviation attrs := (gmap string value).

Record AgentParameters : Type := {
  algorithm : attrs;
  memory : attrs;
  is_a_highest_level_agent : bool;
  is_a_lowest_level_agent : bool
}.

Definition set_algorithm (a : attrs) (p : AgentParameters) : AgentParameters :=
  {| algorithm := a;
     memory := memory p;
     is_a_highest_level_agent := is_a_highest_level_agent p;
     is_a_lowest_level_agent := is_a_lowest_level_agent p |}.

Definition set_memory (m : attrs) (p : AgentParameters) : AgentParameters :=
  {| algorithm := algorithm p;
     memory := m;
     is_a_highest_level_agent := is_a_highest_level_agent p;
     is_a_lowest_level_agent := is_a_lowest_level_agent p |}.

(** ** Objects reachable from the agent's methods *)

Record Transition : Type := {
  state : loc;
  action : ndarray;
  reward : Q;
  next_state : loc;
  game_over : bool
}.

Record GraphManager : Type := {
  should_test_current_sub_goal : bool
}.

(** The fields of [HACDDPGAgent] that its overridden methods read or write.
    [exploration_policy] is the phase held by [self.exploration_policy];
    [distance_from_goal] is the agent's signal, a log of samples. *)
Record Agent : Type := {
  ap : AgentParameters;
  sub_goal_testing_rate : value;
  phase : RunPhase;
  exploration_policy : RunPhase;
  current_hrl_goal : ndarray;
  spaces_goal : Spaces.GoalsSpace;
  distance_from_goal : list ndarray
}.

#[global] Instance Transition_inhabited : Inhabited Transition :=
  populate {| state := 1%positive; action := []; reward := 0%Q;
              next_state := 1%positive; game_over := false |}.

Record World : Type := {
  heap : gmap loc dict;
  transitions : gmap loc Transition;
  self : Agent;
  graph_manager : GraphManager;
  rand : nat -> Q;
  rand_calls : nat
}.

(** Field updates. *)
Definition with_heap (f : gmap loc dict -> gmap loc dict) (w : World) : World :=
  {| heap := f (heap w); transitions := transitions w; self := self w;
     graph_manager := graph_manager w; rand := rand w; rand_calls := rand_calls w |}.

Definition with_transitions (f : gmap loc Transition -> gmap loc Transition) (w : World)
  : World :=
  {| heap := heap w; transitions := f (transitions w); self := self w;
     graph_manager := graph_manager w; rand := rand w; rand_calls := rand_calls w |}.

Definition with_self (f : Agent -> Agent) (w : World) : World :=
  {| heap := heap w; transitions := transitions w; self := f (self w);
     graph_manager := graph_manager w; rand := rand w; rand_calls := rand_calls w |}.

Definition with_graph_manager (f : GraphManager -> GraphManager) (w : World) : World :=
  {| heap := heap w; transitions := transitions w; self := self w;
     graph_manager := f (graph_manager w); rand := rand w; rand_calls := rand_calls w |}.

Definition with_rand_calls (f : nat -> nat) (w : World) : World :=
  {| heap := heap w; transitions := transitions w; self := self w;
     graph_manager := graph_manager w; rand := rand w; rand_calls := f (rand_calls w) |}.

Definition put_reward (r : Q) (t : Transition) : Transition :=
  {| state := state t; action := action t; reward := r;
     next_state := next_state t; game_over := game_over t |}.

Definition put_game_over (b : bool) (t : Transition) : Transition :=
  {| state := state t; action := action t; reward := reward t;
     next_state := next_state t; game_over := b |}.

Definition put_ap (p : AgentParameters) (a : Agent) : Agent :=
  {| ap := p; sub_goal_testing_rate := sub_goal_testing_rate a; phase := phase a;
     exploration_policy := exploration_policy a; current_hrl_goal := current_hrl_goal a;
     spaces_goal := spaces_goal a; distance_from_goal := distance_from_goal a |}.

Definition put_sub_goal_testing_rate (v : value) (a : Agent) : Agent :=
  {| ap := ap a; sub_goal_testing_rate := v; phase := phase a;
     exploration_policy := exploration_policy a; current_hrl_goal := current_hrl_goal a;
     spaces_goal := spaces_goal a; distance_from_goal := distance_from_goal a |}.

Definition put_exploration_policy (p : RunPhase) (a : Agent) : Agent :=
  {| ap := ap a; sub_goal_testing_rate := sub_goal_testing_rate a; phase := phase a;
     exploration_policy := p; current_hrl_goal := current_hrl_goal a;
     spaces_goal := spaces_goal a; distance_from_goal := distance_from_goal a |}.

Definition put_distance_from_goal (s : list ndarray) (a : Agent) : Agent :=
  {| ap := ap a; sub_goal_testing_rate := sub_goal_testing_rate a; phase := phase a;
     exploration_policy := exploration_policy a; current_hrl_goal := current_hrl_goal a;
     spaces_goal := spaces_goal a; distance_from_goal := s |}.

(** ** The monad of a method body: world in, result and world out.
    A raised exception keeps the writes made before it. *)

Definition M (A : Type) : Type := World -> result A * World.

#[global] Instance M_ret : MRet M := fun A a w => (Ok a, w).

#[global] Instance M_bind : MBind M := fun A B f m w =>
  match m w with
  | (Ok a, w') => f a w'
  | (Raise e, w') => (Raise e, w')
  end.

Definition gets {A : Type} (f : World -> A) : M A := fun w => (Ok (f w), w).
Definition modify (f : World -> World) : M unit := fun w => (Ok tt, f w).
Definition call {A : Type} (r : result A) : M A := fun w => (r, w).
Definition when (b : bool) (m : M unit) : M unit := if b then m else mret tt.

(** [d[key] = v] on the dictionary at [l]. *)
Definition setitem (l : loc) (key : string) (v : ndarray) : M unit :=
  modify (with_heap (fun h => <[l := <[key := v]> (h !!! l)]> h)).

(** The dictionary at [l] and the transition at [tr], as they are now. *)
Definition deref (l : loc) : M dict := gets (fun w => heap w !!! l).
Definition transition_at (tr : loc) : M Transition := gets (fun w => transitions w !!! tr).

(** [transition.reward = r] and [transition.game_over = b] *)
Definition set_reward (tr : loc) (r : Q) : M unit :=
  modify (with_transitions (fun m => <[tr := put_reward r (m !!! tr)]> m)).
Definition set_game_over (tr : loc) (b : bool) : M unit :=
  modify (with_transitions (fun m => <[tr := put_game_over b (m !!! tr)]> m)).

(** [self.ap.algorithm.<name>] *)
Definition getattr_algorithm (name : string) : M value :=
  fun w => match algorithm (ap (self w)) !! name with
           | Some v => (Ok v, w)
           | None => (Raise (AttributeError name), w)
           end.

(** [self.distance_from_goal.add_sample(d)] *)
Definition add_sample (d : ndarray) : M unit :=
  modify (with_self (fun a => put_distance_from_goal (distance_from_goal a ++ [d]) a)).

(** [np.random.rand()] : the next draw of the generator. *)
Definition np_random_rand : M Q :=
  fun w => (Ok (rand w (rand_calls w)), with_rand_calls S w).

(** ** HACDDPGAgent.update_transition_before_adding_to_replay_buffer

    [transition] is a reference; the method writes through it and returns it.
    The bodies of its two [if] statements are named after their comments. *)

(** "deal with goals given from a higher level agent" *)
Definition deal_with_goal_from_higher_level (transition : loc) : M unit :=
  goal ← gets (fun w => current_hrl_goal (self w));
  t ← transition_at transition;
  setitem (state t) "desired_goal" goal;;
  setitem (next_state t) "desired_goal" goal;;
  goals ← gets (fun w => spaces_goal (self w));
  ns ← deref (next_state t);
  d ← call (Spaces.distance_from_goal goals goal ns);
  add_sample d;;
  '(goal_reward, sub_goal_reached) ←
    call (Spaces.get_reward_for_goal_and_state goals goal ns);
  set_reward transition goal_reward;;
  t ← transition_at transition;
  set_game_over transition (game_over t || sub_goal_reached).

(** "each level tests its own generated sub goals" *)
Definition test_own_sub_goal (transition : loc) : M unit :=
  goals ← gets (fun w => spaces_goal (self w));
  t ← transition_at transition;
  ns ← deref (next_state t);
  '(_, sub_goal_reached) ←
    call (Spaces.get_reward_for_goal_and_state goals (action t) ns);
  let sub_goal_is_missed := negb sub_goal_reached in
  when sub_goal_is_missed (
    time_limit ← getattr_algorithm "time_limit";
    penalty ← call (neg time_limit);
    set_reward transition penalty
  ).

Definition update_transition_before_adding_to_replay_buffer (transition : loc) : M loc :=
  highest ← gets (fun w => is_a_highest_level_agent (ap (self w)));
  when (negb highest) (deal_with_goal_from_higher_level transition);;
  lowest ← gets (fun w => is_a_lowest_level_agent (ap (self w)));
  testing ← gets (fun w => should_test_current_sub_goal (graph_manager w));
  when (negb lowest && testing) (test_own_sub_goal transition);;
  mret transition.

(** The next-state dictionary of the transition at [tr] once the goal of the
    level above has been attached to it, which is how the goal space of a
    non-top level sees it. *)
Definition next_state_with_goal (w : World) (tr : loc) : dict :=
  <["desired_goal" := current_hrl_goal (self w)]>
    (heap w !!! next_state (transitions w !!! tr)).

(** The worlds the goal-shaping block passes through: goal attached to both
    dictionaries; then one sample logged; then reward and terminal flag
    written. *)
Definition goal_attached (tr : loc) (w : World) : World :=
  let goal := current_hrl_goal (self w) in
  let t := transitions w !!! tr in
  let w := with_heap (fun h => <[state t := <["desired_goal" := goal]> (h !!! state t)]> h) w in
  with_heap
    (fun h => <[next_state t := <["desired_goal" := goal]> (h !!! next_state t)]> h) w.

Definition sampled (d : ndarray) (w : World) : World :=
  with_self (fun a => put_distance_from_goal (distance_from_goal a ++ [d]) a) w.

Definition goal_shaped (d : ndarray) (goal_reward : Q) (reached : bool) (tr : loc)
  (w : World) : World :=
  let w := sampled d (goal_attached tr w) in
  let w := with_transitions (fun m => <[tr := put_reward goal_reward (m !!! tr)]> m) w in
  with_transitions
    (fun m => <[tr := put_game_over (game_over (m !!! tr) || reached) (m !!! tr)]> m) w.

(** The world after the miss penalty has been written. *)
Definition penalised (penalty : Q) (tr : loc) (w : World) : World :=
  with_transitions (fun m => <[tr := put_reward penalty (m !!! tr)]> m) w.

(** ** HACDDPGAgent.choose_action and HACDDPGAgent.__init__

    The DDPG base class is library code.  [DDPGAgent_choose_action] stands for
    [super().choose_action]: it reads the agent and the current state and
    returns an action-info object; what it writes (network and noise-process
    state) lies outside the fields kept in [Agent]. *)

Section HACDDPGAgent.

Variable ActionInfo : Type.
Variable DDPGAgent_choose_action : Agent -> dict -> result ActionInfo.

(** [self.exploration_policy.change_phase(p)] *)
Definition change_phase (p : RunPhase) : M unit :=
  modify (with_self (put_exploration_policy p)).

Definition choose_action (curr_state : dict) : M ActionInfo :=
  (* top level decides, for each of his generated sub-goals, for all the
     layers beneath him if this is a sub-goal testing phase *)
  highest ← gets (fun w => is_a_highest_level_agent (ap (self w)));
  when highest (
    u ← np_random_rand;
    rate ← gets (fun w => sub_goal_testing_rate (self w));
    r ← call (as_number rate);
    modify (with_graph_manager (fun _ => {| should_test_current_sub_goal := Qltb u r |}))
  );;
  ph ← gets (fun w => phase (self w));
  when (RunPhase_eqb ph TRAIN) (
    testing ← gets (fun w => should_test_current_sub_goal (graph_manager w));
    if testing : bool then change_phase TEST else change_phase ph
  );;
  a ← gets self;
  call (DDPGAgent_choose_action a curr_state).

End HACDDPGAgent.

(** [__init__]: [super().__init__] stores the parameters in [self.ap] and fills
    the other fields with the library's initial values, here [fresh]; then the
    testing rate is read from the algorithm parameters. *)
Definition DDPGAgent_init (fresh : Agent) (agent_parameters : AgentParameters) : Agent :=
  put_ap agent_parameters fresh.

Definition HACDDPGAgent_init (fresh : Agent) (agent_parameters : AgentParameters)
  : result Agent :=
  let self := DDPGAgent_init fresh agent_parameters in
  match algorithm (ap self) !! "sub_goal_testing_rate" with
  | Some rate => Ok (put_sub_goal_testing_rate rate self)
  | None => Raise (AttributeError "sub_goal_testing_rate")
  end.

(** ** The parameter classes of the notebook

    [DDPGAlgorithmParameters] and [DDPGAgentParameters] are the objects the
    library constructors of those names return. *)

Section ParameterClasses.

Variable DDPGAlgorithmParameters : attrs.
Variable DDPGAgentParameters : AgentParameters.

Definition HACDDPGAlgorithmParameters : attrs :=
  <["time_limit" := VInt 40]>
    (<["sub_goal_testing_rate" := VFloat 0.5]> DDPGAlgorithmParameters).

Definition HACDDPGAgentParameters : AgentParameters :=
  set_algorithm DDPGAlgorithmParameters DDPGAgentParameters.

End ParameterClasses.

(** ** numpy on one-dimensional arrays *)

(** Elementwise binary operation with numpy's broadcasting rule for one
    dimension: equal lengths pair up, a length-one array is stretched, any
    other pair of shapes raises [ValueError]. *)
Definition np_broadcast {B : Type} (f : Q -> Q -> B) (a b : ndarray) : result (list B) :=
  if decide (length a = length b) then Ok (zip_with f a b)
  else match a, b with
       | [x], _ => Ok (map (f x) b)
       | _, [y] => Ok (map (fun x => f x y) a)
       | _, _ => Raise ValueError
       end.

Definition np_subtract : ndarray -> ndarray -> result ndarray := np_broadcast Qminus.
Definition np_less_equal : ndarray -> ndarray -> result (list bool) := np_broadcast Qle_bool.
Definition np_abs (a : ndarray) : ndarray := map Qabs a.
Definition np_all (bs : list bool) : bool := forallb id bs.

(** The same comparison in binary64, the element type of the notebook's
    arrays: [np.all(np.abs(goal - state) <= threshold)] on arrays of equal
    length. *)
Definition float64_all_within (goal st threshold : list float) : bool :=
  forallb id
    (zip_with PrimFloat.leb (map PrimFloat.abs (zip_with PrimFloat.sub goal st)) threshold).

(** ** The goal space of the preset *)

Module ReachingGoalSpace.

(** The arguments the notebook gives to [ReachingGoal]. *)
Record ReachingGoal : Type := {
  default_reward : Q;
  goal_reaching_reward : Q;
  distance_from_goal_threshold : ndarray
}.

Section GoalsSpace.

Variable goal_name : string.
Variable reward_type : ReachingGoal.
Variable distance_metric : ndarray -> ndarray -> result ndarray.

(** Modelled from the spec: the library class [GoalsSpace] of rl_coach.spaces
    and its [ReachingGoal] reward, which are not among the sources.  The goal
    space reads the achieved state under its representation key, measures
    the distance with the configured function, and the goal is reached when
    the distance is within the threshold in every dimension; the reward is
    the success reward when reached and the default reward otherwise. *)
Definition goal_from_state (st : dict) : result ndarray :=
  match st !! goal_name with
  | Some v => Ok v
  | None => Raise (KeyError goal_name)
  end.

(** Modelled from the spec: [GoalsSpace.distance_from_goal], the configured
    distance function applied to the goal and the achieved state. *)
Definition distance_from_goal (goal : ndarray) (st : dict) : result ndarray :=
  achieved ← goal_from_state st;
  distance_metric goal achieved.

(** Modelled from the spec: [GoalsSpace.get_reward_for_goal_and_state], the
    spec's [reward_for]: reached when the distance is within the threshold,
    success reward when reached and default reward otherwise. *)
Definition get_reward_for_goal_and_state (goal : ndarray) (st : dict)
  : result (Q * bool) :=
  dist ← distance_from_goal goal st;
  within ← np_less_equal dist (distance_from_goal_threshold reward_type);
  let reached := np_all within in
  mret (if reached then goal_reaching_reward reward_type
        else default_reward reward_type, reached).

(** Modelled from the spec: the [GoalsSpace] object built from a goal name, a
    reward type and a distance function, as the agent sees it. *)
Definition GoalsSpace : Spaces.GoalsSpace :=
  {| Spaces.distance_from_goal := distance_from_goal;
     Spaces.get_reward_for_goal_and_state := get_reward_for_goal_and_state |}.

End GoalsSpace.

End ReachingGoalSpace.

(** ** The preset cells of the notebook *)

Module Preset.

Definition time_limit : Z := 1000.
Definition polar_coordinates : bool := false.
Definition distance_from_goal_threshold : ndarray := [0.075; 0.075; 0.75]%Q.

(** [lambda goal, state: np.abs(goal - state)] *)
Definition raw_L1_distance (goal st : ndarray) : result ndarray :=
  d ← np_subtract goal st; mret (np_abs d).

Definition goals_space : Spaces.GoalsSpace :=
  ReachingGoalSpace.GoalsSpace "achieved_goal"
    {| ReachingGoalSpace.default_reward := (-1)%Q;
       ReachingGoalSpace.goal_reaching_reward := 0%Q;
       ReachingGoalSpace.distance_from_goal_threshold := distance_from_goal_threshold |}
    raw_L1_distance.

Section AgentsParams.

(** What the library constructors return. *)
Variable DDPGAlgorithmParameters : attrs.
Variable DDPGAgentParameters : AgentParameters.
Variable EpisodicHRLHindsightExperienceReplayParameters : attrs.
Variable EpisodicHindsightExperienceReplayParameters : attrs.

Definition top_agent_params : AgentParameters :=
  let p := HACDDPGAgentParameters DDPGAlgorithmParameters DDPGAgentParameters in
  (* memory - Hindsight Experience Replay *)
  let p := set_memory EpisodicHRLHindsightExperienceReplayParameters p in
  let p := set_memory (<["max_size" := VObject "(Transitions, 10000000)"]> (memory p)) p in
  let p := set_memory
             (<["hindsight_transitions_per_regular_transition" := VInt 3]> (memory p)) p in
  let p := set_memory
             (<["hindsight_goal_selection_method" := VObject "Future"]> (memory p)) p in
  let p := set_memory (<["goals_space" := VObject "goals_space"]> (memory p)) p in
  let p := set_algorithm
             (<["num_consecutive_playing_steps" := VObject "EnvironmentEpisodes(32)"]>
                (algorithm p)) p in
  let p := set_algorithm
             (<["num_consecutive_training_steps" := VInt 40]> (algorithm p)) p in
  set_algorithm
    (<["num_steps_between_copying_online_weights_to_target" := VObject "TrainingSteps(40)"]>
       (algorithm p)) p.

Definition bottom_agent_params : AgentParameters :=
  let p := HACDDPGAgentParameters DDPGAlgorithmParameters DDPGAgentParameters in
  let p := set_algorithm (<["in_action_space" := VObject "goals_space"]> (algorithm p)) p in
  let p := set_memory EpisodicHindsightExperienceReplayParameters p in
  let p := set_memory (<["max_size" := VObject "(Transitions, 12000000)"]> (memory p)) p in
  let p := set_memory
             (<["hindsight_transitions_per_regular_transition" := VInt 4]> (memory p)) p in
  let p := set_memory
             (<["hindsight_goal_selection_method" := VObject "Future"]> (memory p)) p in
  let p := set_memory (<["goals_space" := VObject "goals_space"]> (memory p)) p in
  let p := set_algorithm
             (<["num_consecutive_playing_steps" := VObject "EnvironmentEpisodes(400)"]>
                (algorithm p)) p in
  let p := set_algorithm
             (<["num_consecutive_training_steps" := VInt 40]> (algorithm p)) p in
  set_algorithm
    (<["num_steps_between_copying_online_weights_to_target" := VObject "TrainingSteps(40)"]>
       (algorithm p)) p.

Definition agents_params : list AgentParameters :=
  [top_agent_params; bottom_agent_params].

End AgentsParams.

(** [env_params.additional_simulator_parameters] *)
Definition additional_simulator_parameters : gmap string value :=
  <["goal_reaching_thresholds" := VObject "distance_from_goal_threshold"]>
    (<["polar_coordinates" := VBool polar_coordinates]>
       (<["random_goals_instead_of_standing_goal" := VBool false]>
          (<["time_limit" := VInt time_limit]> ∅))).

Definition custom_reward_threshold : Z := - time_limit + 1.

(** [consecutive_steps_to_run_each_level=EnvironmentSteps(40)] *)
Definition consecutive_steps_to_run_each_level : Z := 40.

End Preset.

(** ** A hierarchy of agents under one graph manager

    Every agent reaches the graph manager through
    [self.parent_level_manager.parent_graph_manager], so all levels see the one
    [should_test_current_sub_goal] flag; they also share the heaps and the
    random generator.  The library's scheduler is not among the sources: a run
    of the hierarchy is taken to be any sequence of calls to the two
    overridden methods, each made on one level. *)

(** Modelled from the spec: the controller's state, an ordered stack of levels
    around the shared flag (section 3, HierarchyController). *)
Record Hierarchy : Type := {
  levels : list Agent;
  shared_heap : gmap loc dict;
  shared_transitions : gmap loc Transition;
  manager : GraphManager;
  generator : nat -> Q;
  generator_calls : nat
}.

Inductive Call : Type :=
  | ChooseAction (level : nat) (curr_state : dict)
  | UpdateTransition (level : nat) (transition : loc).

Definition level_of (c : Call) : nat :=
  match c with
  | ChooseAction i _ | UpdateTransition i _ => i
  end.

(** The world a method of agent [a] runs in, and the hierarchy it leaves. *)
Definition enter (h : Hierarchy) (a : Agent) : World :=
  {| heap := shared_heap h; transitions := shared_transitions h; self := a;
     graph_manager := manager h; rand := generator h; rand_calls := generator_calls h |}.

Definition leave (i : nat) (w : World) (h : Hierarchy) : Hierarchy :=
  {| levels := <[i := self w]> (levels h);
     shared_heap := heap w; shared_transitions := transitions w;
     manager := graph_manager w; generator := rand w; generator_calls := rand_calls w |}.

Section Run.

Variable ActionInfo : Type.
Variable DDPGAgent_choose_action : Agent -> dict -> result ActionInfo.

Definition perform (c : Call) (h : Hierarchy) : Hierarchy :=
  match levels h !! level_of c with
  | None => h
  | Some a =>
      match c with
      | ChooseAction i curr_state =>
          leave i (snd (choose_action ActionInfo DDPGAgent_choose_action curr_state
                          (enter h a))) h
      | UpdateTransition i transition =>
          leave i (snd (update_transition_before_adding_to_replay_buffer transition
                          (enter h a))) h
      end
  end.

Fixpoint run (cs : list Call) (h : Hierarchy) : Hierarchy :=
  match cs with
  | [] => h
  | c :: cs' => run cs' (perform c h)
  end.

(** The call is the highest-level agent's [choose_action]. *)
Definition is_top_decision (h : Hierarchy) (c : Call) : bool :=
  match c with
  | ChooseAction i _ =>
      match levels h !! i with
      | Some a => is_a_highest_level_agent (ap a)
      | None => false
      end
  | UpdateTransition _ _ => false
  end.

End Run.

(** ** The hindsight replay buffer *)

Module HindsightReplayBuffer.

(** Modelled from the spec: the library's episodic hindsight replay memories
    (rl_coach.memories.episodic), which are not among the sources; the notebook
    only configures them.  A stored transition carries its goal and the
    episode it belongs to. *)
Record Stored : Type := {
  episode : nat;
  state : dict;
  action : ndarray;
  reward : Q;
  next_state : dict;
  terminal : bool;
  goal : ndarray
}.

(** Modelled from the spec: the buffer of the library's hindsight replay
    memories: stored transitions in order, a capacity and a relabel ratio. *)
Record Buffer : Type := {
  transitions : list Stored;
  capacity : nat;
  relabel_ratio : nat
}.

(** Modelled from the spec: [add] appends in episode order and evicts the
    oldest entries beyond the capacity. *)
Definition add (e : Stored) (b : Buffer) : Buffer :=
  let l := transitions b ++ [e] in
  {| transitions := drop (length l - capacity b) l;
     capacity := capacity b;
     relabel_ratio := relabel_ratio b |}.

Section Consumption.

(** The achieved state of a state dictionary, the goal space's
    [reward_for], and the random draws of the substitute goals. *)
Variable achieved : dict -> ndarray.
Variable reward_for : ndarray -> dict -> Q * bool.
Variable draw : nat -> nat -> nat.

(** Modelled from the spec: the future strategy.  The candidates for the
    transition stored at position [i] are the transitions of its own episode
    from position [i] on; the substitute goal is the state achieved by one
    of them. *)
Definition future (l : list Stored) (i : nat) (e : Stored) : list Stored :=
  filter (fun e' => episode e' = episode e) (drop i l).

(** Modelled from the spec: the [k]-th substitute goal of the transition at
    position [i], the state achieved by the candidate that the draw selects. *)
Definition substitute_goal (l : list Stored) (i : nat) (e : Stored) (k : nat) : ndarray :=
  let candidates := future l i e in
  achieved (next_state (nth (draw i k mod length candidates) candidates e)).

(** Modelled from the spec: a relabeled copy takes the substitute goal and
    the reward and terminal flag that [reward_for] gives for it. *)
Definition relabel (g : ndarray) (e : Stored) : Stored :=
  {| episode := episode e; state := state e; action := action e;
     reward := fst (reward_for g (next_state e));
     next_state := next_state e;
     terminal := snd (reward_for g (next_state e));
     goal := g |}.

(** Modelled from the spec: the relabeled transitions of one stored
    transition, one for each of the [relabel_ratio] draws. *)
Definition hindsight_transitions (b : Buffer) (i : nat) (e : Stored) : list Stored :=
  map (fun k => relabel (substitute_goal (transitions b) i e k) e)
      (seq 0 (relabel_ratio b)).

(** Modelled from the spec: the relabeled transitions of the whole buffer. *)
Definition relabeled (b : Buffer) : list Stored :=
  concat (imap (hindsight_transitions b) (transitions b)).

(** Modelled from the spec: the consumable set, the stored transitions
    followed by the relabeled ones of each of them. *)
Definition consumable (b : Buffer) : list Stored :=
  transitions b ++ relabeled b.

End Consumption.

(** Modelled from the spec: an empty buffer for a memory-parameters object;
    its relabel ratio is [hindsight_transitions_per_regular_transition]. *)
Definition of_memory (memory : attrs) (capacity : nat) : result Buffer :=
  match memory !! "hindsight_transitions_per_regular_transition" with
  | Some (VInt r) =>
      Ok {| transitions := []; capacity := capacity; relabel_ratio := Z.to_nat r |}
  | Some _ => Raise TypeError
  | None => Raise (AttributeError "hindsight_transitions_per_regular_transition")
  end.

End HindsightReplayBuffer.

(** ** What a call of the reward-shaping method may touch

    [w'] differs from [w] at most in: the reward and terminal flag of the
    transition at [tr], the [desired_goal] entry of the two dictionaries that
    transition refers to, and the agent's [distance_from_goal] signal, which
    may have gained one sample. *)
Record touches_only_transition (tr : loc) (w w' : World) : Prop := {
  same_graph_manager : graph_manager w' = graph_manager w;
  same_rand : rand w' = rand w;
  same_rand_calls : rand_calls w' = rand_calls w;
  same_ap : ap (self w') = ap (self w);
  same_sub_goal_testing_rate :
    sub_goal_testing_rate (self w') = sub_goal_testing_rate (self w);
  same_phase : phase (self w') = phase (self w);
  same_exploration_policy : exploration_policy (self w') = exploration_policy (self w);
  same_current_hrl_goal : current_hrl_goal (self w') = current_hrl_goal (self w);
  same_spaces_goal : spaces_goal (self w') = spaces_goal (self w);
  signal_extended :
    exists samples : list ndarray,
      distance_from_goal (self w') = distance_from_goal (self w) ++ samples
      /\ (length samples <= 1)%nat;
  same_other_dicts :
    forall l : loc,
      l <> state (transitions w !!! tr) -> l <> next_state (transitions w !!! tr) ->
      heap w' !! l = heap w !! l;
  same_other_keys :
    forall (l : loc) (key : string),
      key <> "desired_goal" -> (heap w' !!! l) !! key = (heap w !!! l) !! key;
  same_other_transitions :
    forall tr' : loc, tr' <> tr -> transitions w' !! tr' = transitions w !! tr';
  same_state : state (transitions w' !!! tr) = state (transitions w !!! tr);
  same_action : action (transitions w' !!! tr) = action (transitions w !!! tr);
  same_next_state : next_state (transitions w' !!! tr) = next_state (transitions w !!! tr)
}.

(** ** Concrete worlds

    A small hierarchy around the preset's goal space, on which the statements
    below are exercised. *)

Module Scenario.

(** An algorithm-parameters object of the base class: it carries attributes
    of its own, and neither of the two that the HAC subclass adds. *)
Definition ddpg_algorithm : attrs :=
  <["rate_for_copying_weights_to_target" := VFloat 0.001]>
    (<["num_consecutive_playing_steps" := VObject "EnvironmentSteps(1)"]> ∅).

Definition ddpg_agent_parameters : AgentParameters :=
  {| algorithm := ddpg_algorithm; memory := ∅;
     is_a_highest_level_agent := false; is_a_lowest_level_agent := false |}.

(** Parameters of a level whose algorithm parameters are an instance of
    [HACDDPGAlgorithmParameters]. *)
Definition level_params (highest lowest : bool) : AgentParameters :=
  {| algorithm := HACDDPGAlgorithmParameters ddpg_algorithm; memory := ∅;
     is_a_highest_level_agent := highest; is_a_lowest_level_agent := lowest |}.

Definition fresh_agent : Agent :=
  {| ap := ddpg_agent_parameters; sub_goal_testing_rate := VNone;
     phase := TRAIN; exploration_policy := TRAIN;
     current_hrl_goal := [0; 0; 0]%Q;
     spaces_goal := Preset.goals_space;
     distance_from_goal := [] |}.

Definition agent (highest lowest : bool) : Agent :=
  put_sub_goal_testing_rate (VFloat 0.5) (put_ap (level_params highest lowest) fresh_agent).

(** Two state dictionaries and one transition between them: the level asked
    its subordinate for [1, 1, 1] and the state reached is [0.5, 0.5, 0.5]. *)
Definition states : gmap loc dict :=
  <[2%positive := <["achieved_goal" := [0.5; 0.5; 0.5]%Q]> ∅]>
    (<[1%positive := <["achieved_goal" := [1; 1; 1]%Q]> ∅]> ∅).

Definition raw_transition : Transition :=
  {| state := 1%positive; action := [1; 1; 1]%Q; reward := 0.3%Q;
     next_state := 2%positive; game_over := false |}.

Definition world (highest lowest testing : bool) : World :=
  {| heap := states;
     transitions := <[1%positive := raw_transition]> ∅;
     self := agent highest lowest;
     graph_manager := {| should_test_current_sub_goal := testing |};
     rand := fun n => (Z.of_nat n # 4)%Q;
     rand_calls := 1 |}.

(** A top level over a bottom level. *)
Definition hierarchy (testing : bool) : Hierarchy :=
  {| levels := [agent true false; agent false true];
     shared_heap := states;
     shared_transitions := <[1%positive := raw_transition]> ∅;
     manager := {| should_test_current_sub_goal := testing |};
     generator := fun n => (Z.of_nat n # 4)%Q;
     generator_calls := 0 |}.

(** A stand-in for [super().choose_action]: it answers with the goal. *)
Definition greedy (a : Agent) (curr_state : dict) : result ndarray :=
  Ok (current_hrl_goal a).

(** The top level as the notebook itself configures it, in a testing phase. *)
Definition notebook_top_params : AgentParameters :=
  Preset.top_agent_params ddpg_algorithm ddpg_agent_parameters ∅.

Definition notebook_world : World :=
  with_self (put_ap notebook_top_params) (world true false true).

(** A hindsight buffer with the relabel ratio of the preset's top level,
    holding an episode of two transitions and the first one of the next. *)
Definition stored (ep : nat) (achieved_before achieved_after : ndarray)
  : HindsightReplayBuffer.Stored :=
  {| HindsightReplayBuffer.episode := ep;
     HindsightReplayBuffer.state := <["achieved_goal" := achieved_before]> ∅;
     HindsightReplayBuffer.action := [1; 1; 1]%Q;
     HindsightReplayBuffer.reward := (-1)%Q;
     HindsightReplayBuffer.next_state := <["achieved_goal" := achieved_after]> ∅;
     HindsightReplayBuffer.terminal := false;
     HindsightReplayBuffer.goal := [0; 0; 0]%Q |}.

Definition buffer : HindsightReplayBuffer.Buffer :=
  HindsightReplayBuffer.add (stored 1 [0.6; 0.6; 0.6]%Q [0.7; 0.7; 0.7]%Q)
    (HindsightReplayBuffer.add (stored 0 [1; 1; 1]%Q [0.5; 0.5; 0.5]%Q)
       (HindsightReplayBuffer.add (stored 0 [2; 2; 2]%Q [1; 1; 1]%Q)
          {| HindsightReplayBuffer.transitions := [];
             HindsightReplayBuffer.capacity := 10;
             HindsightReplayBuffer.relabel_ratio := 3 |})).

Definition achieved (st : dict) : ndarray := default [] (st !! "achieved_goal").

Definition reward_for (g : ndarray) (st : dict) : Q * bool :=
  match Spaces.get_reward_for_goal_and_state Preset.goals_space g st with
  | Ok answer => answer
  | Raise _ => ((-1)%Q, false)
  end.

Definition draw (i k : nat) : nat := (i + k)%nat.

(** The lower level's part of one top-level decision. *)
Definition nested_run : list Call :=
  [ChooseAction 1 (<["achieved_goal" := [1; 1; 1]%Q]> ∅);
   UpdateTransition 1 1%positive;
   ChooseAction 1 (<["achieved_goal" := [0.5; 0.5; 0.5]%Q]> ∅);
   UpdateTransition 1 1%positive].

End Scenario.

(** ** The import cell

    [module_path] is what [os.path.abspath(os.path.join('..'))] returns.  The
    cell appends it and its [rl_coach] subdirectory to [sys.path], guarded by
    [module_path] alone. *)
Definition extend_sys_path (module_path : string) (sys_path : list string) : list string :=
  if decide (module_path ∈ sys_path) then sys_path
  else sys_path ++ [module_path; module_path +:+ "/rl_coach"].


(** ** Further concrete worlds *)

Module Cases.

(** The transition of [Scenario.world], already terminal. *)
Definition terminal_transition : Transition :=
  put_game_over true Scenario.raw_transition.

Definition terminal_world : World :=
  with_transitions (fun _ => <[1%positive := terminal_transition]> ∅)
    (Scenario.world false true false).

(** A bottom level whose next state lacks the achieved goal. *)
Definition blind_world : World :=
  with_heap (fun h => <[2%positive := <["observation" := [0.5]%Q]> ∅]> h)
    (Scenario.world false true false).

(** A middle level whose time limit is [None]. *)
Definition unlimited_world : World :=
  with_self
    (put_ap (set_algorithm (<["time_limit" := VNone]> (algorithm (Scenario.level_params false false)))
               (Scenario.level_params false false)))
    (Scenario.world false false true).

(** A top level whose testing rate is [None], and one that is evaluating. *)
Definition rateless_world : World :=
  with_self (put_sub_goal_testing_rate VNone) (Scenario.world true false false).

Definition evaluating_agent : Agent :=
  {| ap := Scenario.level_params false true; sub_goal_testing_rate := VFloat 0.5;
     phase := TEST; exploration_policy := HEATUP;
     current_hrl_goal := [0; 0; 0]%Q; spaces_goal := Preset.goals_space;
     distance_from_goal := [] |}.

Definition evaluating_world : World :=
  with_self (fun _ => evaluating_agent) (Scenario.world false true true).

(** A top level that always tests. *)
Definition always_testing_world : World :=
  with_self (put_sub_goal_testing_rate (VInt 1)) (Scenario.world true false false).

(** One top-level decision followed by two steps of the level below. *)
Definition decision_run : list Call :=
  ChooseAction 0 (<["achieved_goal" := [1; 1; 1]%Q]> ∅) :: Scenario.nested_run.

End Cases.

(** * Properties *)

(** ** Running method bodies *)

Ltac case_if :=
  match goal with
  | |- context [if ?b then _ else _] => destruct b
  end.

Ltac run_monad :=
  unfold transition_at, deref, setitem, set_reward, set_game_over, add_sample,
    getattr_algorithm, np_random_rand, change_phase, when, gets, modify, call,
    mbind, M_bind, mret, M_ret; cbn.

(** Attaching the goal to [state] and then to [next_state] leaves the
    next-state dictionary with the goal attached, whether or not the two
    references are the same dictionary. *)
Lemma next_state_after_goal_writes (h : gmap loc dict) (s ns : loc) (g : ndarray) :
  let h1 := <[s := <["desired_goal" := g]> (h !!! s)]> h in
  <[ns := <["desired_goal" := g]> (h1 !!! ns)]> h1 !!! ns
  = <["desired_goal" := g]> (h !!! ns).
Proof.
  cbn. rewrite lookup_total_insert_eq.
  destruct (decide (s = ns)) as [->|Hne].
  - rewrite lookup_total_insert_eq. apply insert_insert_eq.
  - rewrite lookup_total_insert_ne by done. reflexivity.
Qed.

(** The goal-shaping block, by what the goal space answers. *)
Lemma deal_with_goal_from_higher_level_cases (w : World) (tr : loc) :
  deal_with_goal_from_higher_level tr w
  = match Spaces.distance_from_goal (spaces_goal (self w)) (current_hrl_goal (self w))
            (next_state_with_goal w tr) with
    | Raise e => (Raise e, goal_attached tr w)
    | Ok d =>
        match Spaces.get_reward_for_goal_and_state (spaces_goal (self w))
                (current_hrl_goal (self w)) (next_state_with_goal w tr) with
        | Raise e => (Raise e, sampled d (goal_attached tr w))
        | Ok (goal_reward, reached) => (Ok tt, goal_shaped d goal_reward reached tr w)
        end
    end.
Proof.
  unfold next_state_with_goal, deal_with_goal_from_higher_level. run_monad.
  rewrite next_state_after_goal_writes.
  destruct (Spaces.distance_from_goal _ _ _) as [d|e]; cbn; [|reflexivity].
  destruct (Spaces.get_reward_for_goal_and_state _ _ _) as [[goal_reward reached]|e];
    reflexivity.
Qed.

Lemma deal_with_goal_from_higher_level_ok (w : World) (tr : loc)
    (d : ndarray) (goal_reward : Q) (reached : bool) :
  Spaces.distance_from_goal (spaces_goal (self w)) (current_hrl_goal (self w))
    (next_state_with_goal w tr) = Ok d ->
  Spaces.get_reward_for_goal_and_state (spaces_goal (self w)) (current_hrl_goal (self w))
    (next_state_with_goal w tr) = Ok (goal_reward, reached) ->
  deal_with_goal_from_higher_level tr w = (Ok tt, goal_shaped d goal_reward reached tr w).
Proof.
  intros Hd Hr. rewrite deal_with_goal_from_higher_level_cases, Hd, Hr. reflexivity.
Qed.

(** What the goal-shaping block leaves behind. *)
Lemma goal_shaped_transition (w : World) (tr : loc) d goal_reward reached :
  transitions (goal_shaped d goal_reward reached tr w) !!! tr
  = put_game_over (game_over (transitions w !!! tr) || reached)
      (put_reward goal_reward (transitions w !!! tr)).
Proof.
  unfold goal_shaped. cbn. rewrite !lookup_total_insert_eq. reflexivity.
Qed.

Lemma goal_shaped_next_state (w : World) (tr : loc) d goal_reward reached :
  heap (goal_shaped d goal_reward reached tr w)
    !!! next_state (transitions (goal_shaped d goal_reward reached tr w) !!! tr)
  = next_state_with_goal w tr.
Proof.
  rewrite goal_shaped_transition. unfold goal_shaped, next_state_with_goal. cbn.
  apply next_state_after_goal_writes.
Qed.

Lemma goal_shaped_self (w : World) (tr : loc) d goal_reward reached :
  self (goal_shaped d goal_reward reached tr w)
  = put_distance_from_goal (distance_from_goal (self w) ++ [d]) (self w).
Proof. reflexivity. Qed.

Lemma goal_shaped_graph_manager (w : World) (tr : loc) d goal_reward reached :
  graph_manager (goal_shaped d goal_reward reached tr w) = graph_manager w.
Proof. reflexivity. Qed.

(** The three ways the testing block ends once the goal space has answered. *)
Lemma test_own_sub_goal_reached (w : World) (tr : loc) (r : Q) :
  Spaces.get_reward_for_goal_and_state (spaces_goal (self w))
    (action (transitions w !!! tr)) (heap w !!! next_state (transitions w !!! tr))
  = Ok (r, true) ->
  test_own_sub_goal tr w = (Ok tt, w).
Proof.
  intros Hr. unfold test_own_sub_goal. run_monad. rewrite Hr. reflexivity.
Qed.

Lemma test_own_sub_goal_missed (w : World) (tr : loc) (r q : Q) (tl : value) :
  Spaces.get_reward_for_goal_and_state (spaces_goal (self w))
    (action (transitions w !!! tr)) (heap w !!! next_state (transitions w !!! tr))
  = Ok (r, false) ->
  algorithm (ap (self w)) !! "time_limit" = Some tl ->
  as_number tl = Ok q ->
  test_own_sub_goal tr w = (Ok tt, penalised (- q)%Q tr w).
Proof.
  intros Hr Htl Hq. unfold test_own_sub_goal. run_monad. rewrite Hr. cbn.
  rewrite Htl. unfold neg. rewrite Hq. reflexivity.
Qed.

Lemma test_own_sub_goal_no_time_limit (w : World) (tr : loc) (r : Q) :
  Spaces.get_reward_for_goal_and_state (spaces_goal (self w))
    (action (transitions w !!! tr)) (heap w !!! next_state (transitions w !!! tr))
  = Ok (r, false) ->
  algorithm (ap (self w)) !! "time_limit" = None ->
  test_own_sub_goal tr w = (Raise (AttributeError "time_limit"), w).
Proof.
  intros Hr Htl. unfold test_own_sub_goal. run_monad. rewrite Hr. cbn.
  rewrite Htl. reflexivity.
Qed.

Lemma penalised_transition (w : World) (tr : loc) (p : Q) :
  transitions (penalised p tr w) !!! tr = put_reward p (transitions w !!! tr).
Proof. unfold penalised. cbn. apply lookup_total_insert_eq. Qed.

(** The method on a top level: only the testing block can run. *)
Lemma update_top (w : World) (tr : loc) :
  is_a_highest_level_agent (ap (self w)) = true ->
  update_transition_before_adding_to_replay_buffer tr w
  = if negb (is_a_lowest_level_agent (ap (self w)))
       && should_test_current_sub_goal (graph_manager w)
    then match test_own_sub_goal tr w with
         | (Ok _, w') => (Ok tr, w')
         | (Raise e, w') => (Raise e, w')
         end
    else (Ok tr, w).
Proof.
  intros Htop. unfold update_transition_before_adding_to_replay_buffer.
  run_monad. rewrite Htop. cbn.
  destruct (negb _ && _); cbn; [|reflexivity].
  destruct (test_own_sub_goal tr w) as [[[]|e] w']; reflexivity.
Qed.

(** The method on a non-top level whose goal space answers the goal block. *)
Lemma update_non_top (w : World) (tr : loc) d goal_reward reached :
  is_a_highest_level_agent (ap (self w)) = false ->
  Spaces.distance_from_goal (spaces_goal (self w)) (current_hrl_goal (self w))
    (next_state_with_goal w tr) = Ok d ->
  Spaces.get_reward_for_goal_and_state (spaces_goal (self w)) (current_hrl_goal (self w))
    (next_state_with_goal w tr) = Ok (goal_reward, reached) ->
  update_transition_before_adding_to_replay_buffer tr w
  = if negb (is_a_lowest_level_agent (ap (self w)))
       && should_test_current_sub_goal (graph_manager w)
    then match test_own_sub_goal tr (goal_shaped d goal_reward reached tr w) with
         | (Ok _, w') => (Ok tr, w')
         | (Raise e, w') => (Raise e, w')
         end
    else (Ok tr, goal_shaped d goal_reward reached tr w).
Proof.
  intros Hnt Hd Hr. unfold update_transition_before_adding_to_replay_buffer.
  unfold when, gets, mbind, M_bind, mret, M_ret. rewrite Hnt. cbn [negb].
  rewrite (deal_with_goal_from_higher_level_ok w tr d goal_reward reached Hd Hr).
  rewrite goal_shaped_self, goal_shaped_graph_manager. cbn [ap put_distance_from_goal].
  destruct (negb _ && _); [|reflexivity].
  destruct (test_own_sub_goal tr _) as [[[]|e] w']; reflexivity.
Qed.

(** ** Reward shaping *)

(** C9. On the highest level no goal shaping is applied; when the level is not
    also the lowest one, a testing phase is on and the subgoal it emitted as
    its action is not reached by the next state, the method returns the
    transition with its reward overwritten by minus the algorithm parameters'
    time limit, and leaves the terminal flag, the state dictionaries and the
    agent as they were. *)
Theorem top_level_miss_penalty (w : World) (tr : loc) (r q : Q) (tl : value) :
  is_a_highest_level_agent (ap (self w)) = true ->
  is_a_lowest_level_agent (ap (self w)) = false ->
  should_test_current_sub_goal (graph_manager w) = true ->
  Spaces.get_reward_for_goal_and_state (spaces_goal (self w))
    (action (transitions w !!! tr)) (heap w !!! next_state (transitions w !!! tr))
  = Ok (r, false) ->
  algorithm (ap (self w)) !! "time_limit" = Some tl ->
  as_number tl = Ok q ->
  let out := update_transition_before_adding_to_replay_buffer tr w in
  fst out = Ok tr /\
  reward (transitions (snd out) !!! tr) = (- q)%Q /\
  game_over (transitions (snd out) !!! tr) = game_over (transitions w !!! tr) /\
  heap (snd out) = heap w /\
  self (snd out) = self w.
Proof.
  intros Htop Hlow Htest Hmiss Htl Hq. cbn zeta.
  rewrite (update_top w tr Htop), Hlow, Htest. cbn [negb andb].
  rewrite (test_own_sub_goal_missed w tr r q tl Hmiss Htl Hq). cbn [fst snd].
  rewrite penalised_transition. repeat split.
Qed.

Lemma top_level_miss_penalty_witness :
  let out := update_transition_before_adding_to_replay_buffer 1%positive
               (Scenario.world true false true) in
  fst out = Ok 1%positive /\
  reward (transitions (snd out) !!! 1%positive) = (- inject_Z 40)%Q /\
  game_over (transitions (snd out) !!! 1%positive) = false /\
  heap (snd out) = Scenario.states /\
  self (snd out) = Scenario.agent true false.
Proof.
  apply (top_level_miss_penalty (Scenario.world true false true) 1%positive
           (-1)%Q (inject_Z 40) (VInt 40)); vm_compute; reflexivity.
Defined.

(** After the goal-shaping block the testing block asks the goal space about
    the same action and the goal-carrying next state. *)
Lemma goal_shaped_test_query (w : World) (tr : loc) d goal_reward reached :
  let w1 := goal_shaped d goal_reward reached tr w in
  Spaces.get_reward_for_goal_and_state (spaces_goal (self w1))
    (action (transitions w1 !!! tr)) (heap w1 !!! next_state (transitions w1 !!! tr))
  = Spaces.get_reward_for_goal_and_state (spaces_goal (self w))
      (action (transitions w !!! tr)) (next_state_with_goal w tr).
Proof.
  cbn zeta. rewrite goal_shaped_next_state, goal_shaped_transition. reflexivity.
Qed.

(** C2. On a level that is neither the highest nor the lowest, during a
    testing phase, when the subgoal the level emitted as its action is not
    reached by the next state: the goal block first writes the goal reward,
    the testing block then writes the penalty over it, and the reward of the
    returned transition is exactly minus the time limit. *)
Theorem middle_level_miss_penalty (w : World) (tr : loc)
    (d : ndarray) (goal_reward r q : Q) (reached : bool) (tl : value) :
  is_a_highest_level_agent (ap (self w)) = false ->
  is_a_lowest_level_agent (ap (self w)) = false ->
  should_test_current_sub_goal (graph_manager w) = true ->
  Spaces.distance_from_goal (spaces_goal (self w)) (current_hrl_goal (self w))
    (next_state_with_goal w tr) = Ok d ->
  Spaces.get_reward_for_goal_and_state (spaces_goal (self w)) (current_hrl_goal (self w))
    (next_state_with_goal w tr) = Ok (goal_reward, reached) ->
  Spaces.get_reward_for_goal_and_state (spaces_goal (self w))
    (action (transitions w !!! tr)) (next_state_with_goal w tr) = Ok (r, false) ->
  algorithm (ap (self w)) !! "time_limit" = Some tl ->
  as_number tl = Ok q ->
  let out := update_transition_before_adding_to_replay_buffer tr w in
  let w1 := goal_shaped d goal_reward reached tr w in
  fst out = Ok tr /\
  reward (transitions w1 !!! tr) = goal_reward /\
  snd out = penalised (- q)%Q tr w1 /\
  reward (transitions (snd out) !!! tr) = (- q)%Q.
Proof.
  intros Hnt Hlow Htest Hd Hr Hmiss Htl Hq. cbn zeta.
  rewrite (update_non_top w tr d goal_reward reached Hnt Hd Hr), Hlow, Htest.
  cbn [negb andb].
  rewrite (test_own_sub_goal_missed _ tr r q tl); cbn [fst snd].
  - rewrite penalised_transition, goal_shaped_transition. repeat split.
  - rewrite <- Hmiss. apply goal_shaped_test_query.
  - exact Htl.
  - exact Hq.
Qed.

Lemma middle_level_miss_penalty_witness :
  let w := Scenario.world false false true in
  let out := update_transition_before_adding_to_replay_buffer 1%positive w in
  let w1 := goal_shaped [0.5; 0.5; 0.5]%Q (-1)%Q false 1%positive w in
  fst out = Ok 1%positive /\
  reward (transitions w1 !!! 1%positive) = (-1)%Q /\
  snd out = penalised (- inject_Z 40)%Q 1%positive w1 /\
  reward (transitions (snd out) !!! 1%positive) = (- inject_Z 40)%Q.
Proof.
  apply (middle_level_miss_penalty (Scenario.world false false true) 1%positive
           [0.5; 0.5; 0.5]%Q (-1)%Q (-1)%Q (inject_Z 40) false (VInt 40));
    vm_compute; reflexivity.
Defined.

(** C1, as stated, fails: on a middle level in a testing phase whose own
    subgoal was missed, the returned reward is the penalty and not the goal
    reward. *)
Lemma non_top_reward_is_not_always_goal_reward :
  ~ (forall (w : World) (tr : loc) (goal_reward : Q) (reached : bool),
       is_a_highest_level_agent (ap (self w)) = false ->
       Spaces.get_reward_for_goal_and_state (spaces_goal (self w))
         (current_hrl_goal (self w)) (next_state_with_goal w tr)
       = Ok (goal_reward, reached) ->
       let out := update_transition_before_adding_to_replay_buffer tr w in
       reward (transitions (snd out) !!! tr) = goal_reward /\
       game_over (transitions (snd out) !!! tr)
       = game_over (transitions w !!! tr) || reached).
Proof.
  intros H.
  destruct (H (Scenario.world false false true) 1%positive (-1)%Q false
              eq_refl eq_refl) as [Hreward _].
  vm_compute in Hreward. discriminate Hreward.
Qed.

(** C1, amended.  On a level that is not the highest, once the goal space has
    answered, the method returns the transition with its terminal flag set to
    the old flag or [sub_goal_reached], and with the goal reward as its reward;
    the one exception is a level that is not the lowest either, in a testing
    phase, whose own subgoal was missed: there the reward is minus the time
    limit.  The raw reward of the environment remains in neither case. *)
Theorem non_top_reward_shaping (w : World) (tr : loc)
    (d : ndarray) (goal_reward r q : Q) (reached reached_own : bool) (tl : value) :
  let testing := negb (is_a_lowest_level_agent (ap (self w)))
                 && should_test_current_sub_goal (graph_manager w) in
  is_a_highest_level_agent (ap (self w)) = false ->
  Spaces.distance_from_goal (spaces_goal (self w)) (current_hrl_goal (self w))
    (next_state_with_goal w tr) = Ok d ->
  Spaces.get_reward_for_goal_and_state (spaces_goal (self w)) (current_hrl_goal (self w))
    (next_state_with_goal w tr) = Ok (goal_reward, reached) ->
  (testing = true ->
   Spaces.get_reward_for_goal_and_state (spaces_goal (self w))
     (action (transitions w !!! tr)) (next_state_with_goal w tr) = Ok (r, reached_own)) ->
  (testing = true -> reached_own = false ->
   algorithm (ap (self w)) !! "time_limit" = Some tl /\ as_number tl = Ok q) ->
  let out := update_transition_before_adding_to_replay_buffer tr w in
  fst out = Ok tr /\
  game_over (transitions (snd out) !!! tr) = game_over (transitions w !!! tr) || reached /\
  reward (transitions (snd out) !!! tr)
  = if testing && negb reached_own then (- q)%Q else goal_reward.
Proof.
  intros testing Hnt Hd Hr Hown Hattr. cbn zeta.
  rewrite (update_non_top w tr d goal_reward reached Hnt Hd Hr).
  fold testing. destruct testing.
  - specialize (Hown eq_refl). rewrite <- (goal_shaped_test_query w tr d goal_reward reached) in Hown.
    destruct reached_own; cbn [negb andb].
    + rewrite (test_own_sub_goal_reached _ tr r Hown). cbn [fst snd].
      rewrite goal_shaped_transition. repeat split.
    + destruct (Hattr eq_refl eq_refl) as [Htl Hq].
      rewrite (test_own_sub_goal_missed _ tr r q tl Hown Htl Hq). cbn [fst snd].
      rewrite penalised_transition, goal_shaped_transition. repeat split.
  - cbn [fst snd andb]. rewrite goal_shaped_transition. repeat split.
Qed.

Lemma non_top_reward_shaping_witness :
  let w := Scenario.world false false true in
  let out := update_transition_before_adding_to_replay_buffer 1%positive w in
  fst out = Ok 1%positive /\
  game_over (transitions (snd out) !!! 1%positive) = false /\
  reward (transitions (snd out) !!! 1%positive) = (- inject_Z 40)%Q.
Proof.
  apply (non_top_reward_shaping (Scenario.world false false true) 1%positive
           [0.5; 0.5; 0.5]%Q (-1)%Q (-1)%Q (inject_Z 40) false false (VInt 40)).
  - vm_compute; reflexivity.
  - vm_compute; reflexivity.
  - vm_compute; reflexivity.
  - intros _. vm_compute; reflexivity.
  - intros _ _. split; vm_compute; reflexivity.
Defined.

(** ** Frame of the reward-shaping method *)

(** The testing block, by what the goal space and the parameters answer. *)
Lemma test_own_sub_goal_cases (w : World) (tr : loc) :
  test_own_sub_goal tr w
  = match Spaces.get_reward_for_goal_and_state (spaces_goal (self w))
            (action (transitions w !!! tr))
            (heap w !!! next_state (transitions w !!! tr)) with
    | Raise e => (Raise e, w)
    | Ok (_, true) => (Ok tt, w)
    | Ok (_, false) =>
        match algorithm (ap (self w)) !! "time_limit" with
        | None => (Raise (AttributeError "time_limit"), w)
        | Some tl =>
            match neg tl with
            | Raise e => (Raise e, w)
            | Ok penalty => (Ok tt, penalised penalty tr w)
            end
        end
    end.
Proof.
  unfold test_own_sub_goal. run_monad.
  destruct (Spaces.get_reward_for_goal_and_state _ _ _) as [[r [|]]|e]; cbn;
    try reflexivity.
  destruct (algorithm _ !! "time_limit") as [tl|]; cbn; [|reflexivity].
  destruct (neg tl); reflexivity.
Qed.

Lemma touches_only_transition_refl (tr : loc) (w : World) :
  touches_only_transition tr w w.
Proof.
  split; try reflexivity.
  exists []. split; [by rewrite app_nil_r | cbn; lia].
Qed.

Lemma touches_only_transition_goal_attached (tr : loc) (w : World) :
  touches_only_transition tr w (goal_attached tr w).
Proof.
  split; try reflexivity.
  - exists []. split; [by rewrite app_nil_r | cbn; lia].
  - intros l Hs Hns. unfold goal_attached. cbn.
    rewrite !lookup_insert_ne by done. reflexivity.
  - intros l key Hkey. unfold goal_attached. cbn.
    set (g := current_hrl_goal (self w)).
    set (s := state (transitions w !!! tr)).
    set (ns := next_state (transitions w !!! tr)).
    destruct (decide (ns = l)) as [<-|Hns].
    + rewrite next_state_after_goal_writes. by rewrite lookup_insert_ne.
    + rewrite lookup_total_insert_ne by done.
      destruct (decide (s = l)) as [<-|Hs].
      * rewrite lookup_total_insert_eq. by rewrite lookup_insert_ne.
      * by rewrite lookup_total_insert_ne.
Qed.

Lemma touches_only_transition_sampled (tr : loc) (w w1 : World) (d : ndarray) :
  distance_from_goal (self w1) = distance_from_goal (self w) ->
  touches_only_transition tr w w1 ->
  touches_only_transition tr w (sampled d w1).
Proof.
  intros Hsig []. split; try assumption.
  exists [d]. cbn. split; [by rewrite Hsig | lia].
Qed.

Lemma touches_only_transition_penalised (tr : loc) (w w1 : World) (p : Q) :
  touches_only_transition tr w w1 ->
  touches_only_transition tr w (penalised p tr w1).
Proof.
  intros []. split; try assumption.
  - intros tr' Hne. unfold penalised. cbn. rewrite lookup_insert_ne by done. auto.
  - by rewrite penalised_transition.
  - by rewrite penalised_transition.
  - by rewrite penalised_transition.
Qed.

Lemma touches_only_transition_goal_shaped (tr : loc) (w : World) d goal_reward reached :
  touches_only_transition tr w (goal_shaped d goal_reward reached tr w).
Proof.
  pose proof (touches_only_transition_sampled tr w (goal_attached tr w) d eq_refl
                (touches_only_transition_goal_attached tr w)) as [].
  split; try assumption.
  - intros tr' Hne. unfold goal_shaped. cbn. rewrite !lookup_insert_ne by done.
    reflexivity.
  - by rewrite goal_shaped_transition.
  - by rewrite goal_shaped_transition.
  - by rewrite goal_shaped_transition.
Qed.

Lemma touches_only_transition_test_own_sub_goal (tr : loc) (w w1 : World) :
  touches_only_transition tr w w1 ->
  touches_only_transition tr w (snd (test_own_sub_goal tr w1)).
Proof.
  intros Hf. rewrite test_own_sub_goal_cases.
  destruct (Spaces.get_reward_for_goal_and_state _ _ _) as [[r [|]]|e]; cbn;
    try assumption.
  destruct (algorithm _ !! "time_limit") as [tl|]; cbn; [|assumption].
  destruct (neg tl); cbn; [|assumption].
  by apply touches_only_transition_penalised.
Qed.

Lemma touches_only_transition_deal_with_goal (tr : loc) (w : World) :
  touches_only_transition tr w (snd (deal_with_goal_from_higher_level tr w)).
Proof.
  rewrite deal_with_goal_from_higher_level_cases.
  destruct (Spaces.distance_from_goal _ _ _) as [d|e]; cbn.
  - destruct (Spaces.get_reward_for_goal_and_state _ _ _) as [[goal_reward reached]|e];
      cbn.
    + apply touches_only_transition_goal_shaped.
    + apply touches_only_transition_sampled; [reflexivity|].
      apply touches_only_transition_goal_attached.
  - apply touches_only_transition_goal_attached.
Qed.

(** The world the method leaves, in terms of its two blocks. *)
Lemma update_world (w : World) (tr : loc) :
  snd (update_transition_before_adding_to_replay_buffer tr w)
  = let block1 := if is_a_highest_level_agent (ap (self w)) then (Ok tt, w)
                  else deal_with_goal_from_higher_level tr w in
    match block1 with
    | (Raise _, w1) => w1
    | (Ok _, w1) =>
        if negb (is_a_lowest_level_agent (ap (self w1)))
           && should_test_current_sub_goal (graph_manager w1)
        then snd (test_own_sub_goal tr w1)
        else w1
    end.
Proof.
  unfold update_transition_before_adding_to_replay_buffer.
  unfold when, gets, mbind, M_bind, mret, M_ret.
  destruct (is_a_highest_level_agent (ap (self w))); cbn [negb].
  - case_if; [|reflexivity].
    destruct (test_own_sub_goal tr w) as [[[]|e] w']; reflexivity.
  - destruct (deal_with_goal_from_higher_level tr w) as [[[]|e] w1]; [|reflexivity].
    case_if; [|reflexivity].
    destruct (test_own_sub_goal tr w1) as [[[]|e] w']; reflexivity.
Qed.

(** Whether it returns or raises, the method stays within its frame. *)
Lemma update_touches_only_transition (w : World) (tr : loc) :
  touches_only_transition tr w
    (snd (update_transition_before_adding_to_replay_buffer tr w)).
Proof.
  rewrite update_world.
  destruct (is_a_highest_level_agent (ap (self w))); cbn beta iota zeta.
  - case_if.
    + apply touches_only_transition_test_own_sub_goal, touches_only_transition_refl.
    + apply touches_only_transition_refl.
  - pose proof (touches_only_transition_deal_with_goal tr w) as Hf.
    destruct (deal_with_goal_from_higher_level tr w) as [[[]|e] w1]; cbn in Hf;
      [|exact Hf].
    case_if; [|exact Hf].
    by apply touches_only_transition_test_own_sub_goal.
Qed.

(** On the highest level neither the agent nor the dictionaries are written. *)
Lemma update_top_leaves_agent_and_heap (w : World) (tr : loc) :
  is_a_highest_level_agent (ap (self w)) = true ->
  let w' := snd (update_transition_before_adding_to_replay_buffer tr w) in
  self w' = self w /\ heap w' = heap w.
Proof.
  intros Htop. cbn zeta. rewrite update_world, Htop. cbn beta iota zeta.
  case_if; [|split; reflexivity].
  rewrite test_own_sub_goal_cases.
  destruct (Spaces.get_reward_for_goal_and_state _ _ _) as [[r [|]]|e]; cbn;
    try (split; reflexivity).
  destruct (algorithm _ !! "time_limit") as [tl|]; cbn; [|split; reflexivity].
  destruct (neg tl); split; reflexivity.
Qed.

(** C4, as stated, fails: on a level that is not the highest the call logs a
    sample in the agent's own [distance_from_goal] signal, so the agent is not
    what it was before the call. *)
Lemma update_transition_modifies_agent :
  ~ (forall (w : World) (tr : loc),
       self (snd (update_transition_before_adding_to_replay_buffer tr w)) = self w).
Proof.
  intros H.
  pose proof (f_equal distance_from_goal
                (H (Scenario.world false true false) 1%positive)) as Hsig.
  vm_compute in Hsig. discriminate Hsig.
Qed.

(** C4, amended.  The method is a function of the world it starts in, and
    whether it returns or raises it touches only: the reward and terminal flag
    of the transition it is given, the [desired_goal] entry of that
    transition's two state dictionaries, and the agent's [distance_from_goal]
    signal, which gains one sample on a level that is not the highest once the
    goal space has given the distance.  The graph manager, the random
    generator, every other field of the agent, every other dictionary and
    every other transition are as before; on the highest level the agent and
    the dictionaries are untouched altogether. *)
Theorem update_transition_frame (w : World) (tr : loc) :
  let w' := snd (update_transition_before_adding_to_replay_buffer tr w) in
  touches_only_transition tr w w' /\
  (is_a_highest_level_agent (ap (self w)) = true -> self w' = self w /\ heap w' = heap w) /\
  (forall d : ndarray,
     is_a_highest_level_agent (ap (self w)) = false ->
     Spaces.distance_from_goal (spaces_goal (self w)) (current_hrl_goal (self w))
       (next_state_with_goal w tr) = Ok d ->
     distance_from_goal (self w') = distance_from_goal (self w) ++ [d]).
Proof.
  cbn zeta. split; [apply update_touches_only_transition|].
  split; [apply update_top_leaves_agent_and_heap|].
  intros d Hnt Hd. rewrite update_world, Hnt. cbn beta iota zeta.
  rewrite deal_with_goal_from_higher_level_cases, Hd.
  assert (forall w1 : World,
            distance_from_goal (self w1) = distance_from_goal (self w) ++ [d] ->
            distance_from_goal (self (snd (test_own_sub_goal tr w1)))
            = distance_from_goal (self w) ++ [d]) as Htest.
  { intros w1 Hw1. rewrite test_own_sub_goal_cases.
    destruct (Spaces.get_reward_for_goal_and_state _ _ _) as [[r [|]]|e]; cbn;
      try exact Hw1.
    destruct (algorithm _ !! "time_limit") as [tl|]; cbn; [|exact Hw1].
    destruct (neg tl); exact Hw1. }
  destruct (Spaces.get_reward_for_goal_and_state _ _ _) as [[goal_reward reached]|e];
    [|reflexivity].
  case_if; [|reflexivity]. by apply Htest.
Qed.

Lemma update_transition_frame_witness :
  let w := Scenario.world false true false in
  let w' := snd (update_transition_before_adding_to_replay_buffer 1%positive w) in
  graph_manager w' = graph_manager w /\
  ap (self w') = ap (self w) /\
  distance_from_goal (self w') = [[0.5; 0.5; 0.5]%Q].
Proof.
  destruct (update_transition_frame (Scenario.world false true false) 1%positive)
    as (Hframe & _ & Hsignal).
  split; [apply (same_graph_manager _ _ _ Hframe)|].
  split; [apply (same_ap _ _ _ Hframe)|].
  apply (Hsignal [0.5; 0.5; 0.5]%Q); vm_compute; reflexivity.
Defined.

(** ** The two time limits *)

(** C3, as stated, fails: with the algorithm parameters the notebook declares
    (time limit 40) and the environment budget the preset passes (1000), the
    penalty written is not minus the environment's budget. *)
Lemma miss_penalty_is_not_environment_time_limit :
  ~ (forall (w : World) (tr : loc) (r : Q) (budget : Z),
       is_a_lowest_level_agent (ap (self w)) = false ->
       should_test_current_sub_goal (graph_manager w) = true ->
       Spaces.get_reward_for_goal_and_state (spaces_goal (self w))
         (action (transitions w !!! tr)) (heap w !!! next_state (transitions w !!! tr))
       = Ok (r, false) ->
       Preset.additional_simulator_parameters !! "time_limit" = Some (VInt budget) ->
       reward (transitions (snd (update_transition_before_adding_to_replay_buffer tr w))
                 !!! tr)
       = inject_Z (- budget)).
Proof.
  intros H.
  pose proof (H (Scenario.world true false true) 1%positive (-1)%Q 1000
                eq_refl eq_refl eq_refl eq_refl) as Hreward.
  vm_compute in Hreward. discriminate Hreward.
Qed.

(** C3, amended.  The penalty the testing block writes is minus the
    [time_limit] attribute of the agent's own algorithm parameters, which
    [HACDDPGAlgorithmParameters] declares as 40; the step budget handed to the
    environment is the preset's module-level [time_limit], 1000.  They are two
    values, set in two places. *)
Theorem miss_penalty_is_algorithm_time_limit (w : World) (tr : loc) (r q : Q) (tl : value) :
  Spaces.get_reward_for_goal_and_state (spaces_goal (self w))
    (action (transitions w !!! tr)) (heap w !!! next_state (transitions w !!! tr))
  = Ok (r, false) ->
  algorithm (ap (self w)) !! "time_limit" = Some tl ->
  as_number tl = Ok q ->
  (let out := test_own_sub_goal tr w in
   fst out = Ok tt /\ reward (transitions (snd out) !!! tr) = (- q)%Q) /\
  (forall base : attrs, HACDDPGAlgorithmParameters base !! "time_limit" = Some (VInt 40)) /\
  Preset.additional_simulator_parameters !! "time_limit" = Some (VInt Preset.time_limit) /\
  Preset.time_limit = 1000.
Proof.
  intros Hmiss Htl Hq. repeat split.
  - by rewrite (test_own_sub_goal_missed w tr r q tl Hmiss Htl Hq).
  - rewrite (test_own_sub_goal_missed w tr r q tl Hmiss Htl Hq). cbn [snd].
    by rewrite penalised_transition.
  - intros base. unfold HACDDPGAlgorithmParameters. apply lookup_insert_eq.
Qed.

Lemma miss_penalty_is_algorithm_time_limit_witness :
  let out := test_own_sub_goal 1%positive (Scenario.world true false true) in
  fst out = Ok tt /\
  reward (transitions (snd out) !!! 1%positive) = (- inject_Z 40)%Q /\
  HACDDPGAlgorithmParameters Scenario.ddpg_algorithm !! "time_limit" = Some (VInt 40) /\
  Preset.additional_simulator_parameters !! "time_limit" = Some (VInt 1000).
Proof.
  destruct (miss_penalty_is_algorithm_time_limit (Scenario.world true false true)
              1%positive (-1)%Q (inject_Z 40) (VInt 40))
    as ((Hret & Hreward) & Hdeclared & Hbudget & _);
    [vm_compute; reflexivity ..|].
  exact (conj Hret (conj Hreward (conj (Hdeclared Scenario.ddpg_algorithm) Hbudget))).
Defined.

(** ** The goal space of the preset *)

(** C8. With per-dimension distance |goal - state| and thresholds
    [0.075, 0.075, 0.75], the goal [0, 0, 0] is reached by the achieved state
    [0.05, 0.02, 0.1]: every dimension is within its threshold, over the
    rationals and in binary64 alike, and the reward is the goal-reaching
    reward 0, which is not the default reward -1. *)
#[warnings="-inexact-float"]
Theorem preset_goal_reached_scenario :
  Spaces.get_reward_for_goal_and_state Preset.goals_space [0; 0; 0]%Q
    (<["achieved_goal" := [0.05; 0.02; 0.1]%Q]> ∅)
  = Ok (0%Q, true) /\
  (pwd ← Spaces.distance_from_goal Preset.goals_space [0; 0; 0]%Q
           (<["achieved_goal" := [0.05; 0.02; 0.1]%Q]> ∅);
   np_less_equal pwd Preset.distance_from_goal_threshold) = Ok [true; true; true] /\
  0%Q <> (-1)%Q /\
  float64_all_within [0; 0; 0]%float [0.05; 0.02; 0.1]%float [0.075; 0.075; 0.75]%float
  = true.
Proof.
  split; [vm_compute; reflexivity|].
  split; [vm_compute; reflexivity|].
  split; [discriminate | vm_compute; reflexivity].
Qed.

(** ** choose_action *)

Section ChooseAction.

Variable ActionInfo : Type.
Variable DDPGAgent_choose_action : Agent -> dict -> result ActionInfo.

Let choose := choose_action ActionInfo DDPGAgent_choose_action.

(** The flag as it stands when the exploration phase is chosen: freshly
    drawn on the highest level, read from the graph manager below it. *)
Lemma choose_action_world (w : World) (curr_state : dict) (r : Q) :
  (is_a_highest_level_agent (ap (self w)) = true ->
   as_number (sub_goal_testing_rate (self w)) = Ok r) ->
  let decided :=
    if is_a_highest_level_agent (ap (self w))
    then with_graph_manager
           (fun _ => {| should_test_current_sub_goal := Qltb (rand w (rand_calls w)) r |})
           (with_rand_calls S w)
    else w in
  let phased :=
    if RunPhase_eqb (phase (self w)) TRAIN
    then with_self
           (put_exploration_policy
              (if should_test_current_sub_goal (graph_manager decided)
               then TEST else phase (self w)))
           decided
    else decided in
  choose curr_state w = (DDPGAgent_choose_action (self phased) curr_state, phased).
Proof.
  intros Hrate. subst choose. unfold choose_action. run_monad.
  destruct (is_a_highest_level_agent (ap (self w))); cbn.
  - rewrite (Hrate eq_refl). cbn.
    destruct (RunPhase_eqb (phase (self w)) TRAIN); cbn.
    + destruct (Qltb _ _); cbn; destruct (DDPGAgent_choose_action _ _); reflexivity.
    + destruct (DDPGAgent_choose_action _ _); reflexivity.
  - destruct (RunPhase_eqb (phase (self w)) TRAIN); cbn.
    + destruct (should_test_current_sub_goal _); cbn;
        destruct (DDPGAgent_choose_action _ _); reflexivity.
    + destruct (DDPGAgent_choose_action _ _); reflexivity.
Qed.

(** A level that is not the highest leaves the graph manager alone, whatever
    its testing rate is. *)
Lemma choose_action_non_top_graph_manager (w : World) (curr_state : dict) :
  is_a_highest_level_agent (ap (self w)) = false ->
  graph_manager (snd (choose curr_state w)) = graph_manager w.
Proof.
  intros Hnt.
  rewrite (choose_action_world w curr_state 0%Q) by (rewrite Hnt; discriminate).
  rewrite Hnt. cbn. case_if; reflexivity.
Qed.

(** [choose_action] never touches the agent's parameters. *)
Lemma choose_action_ap (w : World) (curr_state : dict) :
  ap (self (snd (choose curr_state w))) = ap (self w).
Proof.
  subst choose. unfold choose_action. run_monad.
  destruct (is_a_highest_level_agent (ap (self w))); cbn.
  - destruct (as_number _); cbn; [|reflexivity].
    destruct (RunPhase_eqb _ _); cbn; [destruct (Qltb _ _)|]; reflexivity.
  - destruct (RunPhase_eqb _ _); cbn;
      [destruct (should_test_current_sub_goal _)|]; reflexivity.
Qed.

End ChooseAction.

(** C7. When the agent's run phase is TRAIN, [choose_action] sets the phase of
    the exploration policy before it asks the base class for the action: to
    TEST when [should_test_current_sub_goal] is true, and to the agent's own
    run phase otherwise.  The flag is the one in force at that point: the
    value just drawn on the highest level, the graph manager's value below. *)
Theorem choose_action_exploration_phase (ActionInfo : Type)
    (DDPGAgent_choose_action : Agent -> dict -> result ActionInfo)
    (w : World) (curr_state : dict) (r : Q) :
  phase (self w) = TRAIN ->
  (is_a_highest_level_agent (ap (self w)) = true ->
   as_number (sub_goal_testing_rate (self w)) = Ok r) ->
  let out := choose_action ActionInfo DDPGAgent_choose_action curr_state w in
  let testing := should_test_current_sub_goal (graph_manager (snd out)) in
  testing = (if is_a_highest_level_agent (ap (self w))
             then Qltb (rand w (rand_calls w)) r
             else should_test_current_sub_goal (graph_manager w)) /\
  exploration_policy (self (snd out)) = (if testing then TEST else phase (self w)) /\
  fst out = DDPGAgent_choose_action (self (snd out)) curr_state.
Proof.
  intros Htrain Hrate. cbn zeta.
  rewrite (choose_action_world ActionInfo DDPGAgent_choose_action w curr_state r Hrate).
  rewrite Htrain. cbn.
  destruct (is_a_highest_level_agent (ap (self w))); cbn; repeat split.
Qed.

Lemma choose_action_exploration_phase_witness :
  let out := choose_action ndarray Scenario.greedy (<["achieved_goal" := [1; 1; 1]%Q]> ∅)
               (Scenario.world true false false) in
  let testing := should_test_current_sub_goal (graph_manager (snd out)) in
  testing = true /\
  exploration_policy (self (snd out)) = TEST /\
  fst out = Ok [0; 0; 0]%Q.
Proof.
  apply (choose_action_exploration_phase ndarray Scenario.greedy
           (Scenario.world true false false) (<["achieved_goal" := [1; 1; 1]%Q]> ∅) 0.5%Q).
  - reflexivity.
  - intros _. reflexivity.
Defined.

(** ** The testing flag across a run of the hierarchy *)

Section FlagInvariant.

Variable ActionInfo : Type.
Variable DDPGAgent_choose_action : Agent -> dict -> result ActionInfo.

Let step := perform ActionInfo DDPGAgent_choose_action.
Let steps := run ActionInfo DDPGAgent_choose_action.

(** A call on a level that does not exist is no call. *)
Lemma perform_no_level (c : Call) (h : Hierarchy) :
  levels h !! level_of c = None -> step c h = h.
Proof.
  intros Hlv. subst step. unfold perform. by rewrite Hlv.
Qed.

(** Whatever the call, the level that made it keeps its parameters. *)
Lemma perform_levels (c : Call) (h : Hierarchy) (a : Agent) :
  levels h !! level_of c = Some a ->
  exists a' : Agent,
    levels (step c h) = <[level_of c := a']> (levels h) /\ ap a' = ap a.
Proof.
  intros Hlv. subst step. unfold perform. rewrite Hlv.
  destruct c as [i curr_state | i tr]; cbn in *.
  - eexists. split; [reflexivity|].
    apply (choose_action_ap ActionInfo DDPGAgent_choose_action (enter h a)).
  - eexists. split; [reflexivity|].
    apply (same_ap _ _ _ (update_touches_only_transition (enter h a) tr)).
Qed.

Lemma perform_is_top_decision (c c' : Call) (h : Hierarchy) :
  is_top_decision (step c h) c' = is_top_decision h c'.
Proof.
  destruct (levels h !! level_of c) as [a|] eqn:Hlv;
    [|by rewrite perform_no_level].
  destruct c' as [j curr_state | j tr]; [|reflexivity]. cbn.
  destruct (perform_levels c h a Hlv) as (a' & -> & Hap).
  destruct (decide (level_of c = j)) as [<-|Hne].
  - rewrite list_lookup_insert_eq by (by eapply lookup_lt_Some).
    by rewrite Hlv, Hap.
  - by rewrite list_lookup_insert_ne.
Qed.

(** Only the highest level's [choose_action] writes the graph manager. *)
Lemma perform_manager (c : Call) (h : Hierarchy) :
  is_top_decision h c = false -> manager (step c h) = manager h.
Proof.
  subst step. unfold perform, is_top_decision.
  destruct c as [i curr_state | i tr]; cbn.
  - destruct (levels h !! i) as [a|]; [|reflexivity]. intros Hnt. cbn.
    apply (choose_action_non_top_graph_manager ActionInfo DDPGAgent_choose_action
             (enter h a) curr_state Hnt).
  - destruct (levels h !! i) as [a|]; [|reflexivity]. intros _. cbn.
    apply (same_graph_manager _ _ _ (update_touches_only_transition (enter h a) tr)).
Qed.

Lemma run_manager (cs : list Call) (h : Hierarchy) :
  Forall (fun c => is_top_decision h c = false) cs ->
  manager (steps cs h) = manager h.
Proof.
  revert h. induction cs as [|c cs IH]; intros h Hcs; [reflexivity|].
  apply Forall_cons in Hcs as [Hc Hcs]. cbn.
  change (manager (steps cs (step c h)) = manager h). rewrite IH.
  - by apply perform_manager.
  - eapply Forall_impl; [exact Hcs|]. intros c' Hc'.
    by rewrite perform_is_top_decision.
Qed.

End FlagInvariant.

(** C6. In a run of the hierarchy that contains no [choose_action] of the
    highest level — the lower levels' part of one top-level decision —
    [should_test_current_sub_goal] has the same value after every call as at
    the start: neither [choose_action] on a lower level nor the reward-shaping
    method on any level writes it. *)
Theorem should_test_current_sub_goal_invariant (ActionInfo : Type)
    (DDPGAgent_choose_action : Agent -> dict -> result ActionInfo)
    (cs : list Call) (h : Hierarchy) :
  Forall (fun c => is_top_decision h c = false) cs ->
  forall k : nat,
    should_test_current_sub_goal
      (manager (run ActionInfo DDPGAgent_choose_action (take k cs) h))
    = should_test_current_sub_goal (manager h).
Proof.
  intros Hcs k. f_equal. apply run_manager.
  by apply Forall_take.
Qed.

Lemma should_test_current_sub_goal_invariant_witness :
  should_test_current_sub_goal
    (manager (run ndarray Scenario.greedy (take 3 Scenario.nested_run)
                (Scenario.hierarchy true)))
  = true.
Proof.
  apply (should_test_current_sub_goal_invariant ndarray Scenario.greedy
           Scenario.nested_run (Scenario.hierarchy true)).
  repeat constructor.
Defined.

(** ** The parameter classes *)

Section HACParameters.

Variable DDPGAlgorithmParameters : attrs.
Variable DDPGAgentParameters : AgentParameters.
Variable EpisodicHRLHindsightExperienceReplayParameters : attrs.
Variable EpisodicHindsightExperienceReplayParameters : attrs.

Let top := Preset.top_agent_params DDPGAlgorithmParameters DDPGAgentParameters
             EpisodicHRLHindsightExperienceReplayParameters.
Let bottom := Preset.bottom_agent_params DDPGAlgorithmParameters DDPGAgentParameters
                EpisodicHindsightExperienceReplayParameters.

(** The preset assigns other attributes of the algorithm parameters, never
    these two. *)
Lemma top_agent_params_hac_attributes :
  algorithm top !! "sub_goal_testing_rate"
  = DDPGAlgorithmParameters !! "sub_goal_testing_rate" /\
  algorithm top !! "time_limit" = DDPGAlgorithmParameters !! "time_limit".
Proof.
  subst top. unfold Preset.top_agent_params. cbn.
  split; by rewrite !lookup_insert_ne.
Qed.

Lemma bottom_agent_params_hac_attributes :
  algorithm bottom !! "sub_goal_testing_rate"
  = DDPGAlgorithmParameters !! "sub_goal_testing_rate" /\
  algorithm bottom !! "time_limit" = DDPGAlgorithmParameters !! "time_limit".
Proof.
  subst bottom. unfold Preset.bottom_agent_params. cbn.
  split; by rewrite !lookup_insert_ne.
Qed.

End HACParameters.

(** C10. [HACDDPGAgentParameters] sets its algorithm field to a plain
    [DDPGAlgorithmParameters] object, not to the HAC subclass that declares
    [sub_goal_testing_rate = 0.5] and [time_limit = 40].  As the base class
    declares neither attribute, both are absent from the algorithm parameters
    of every agent the notebook builds from it: the constructor of the agent
    raises [AttributeError] when it reads the testing rate, and so does the
    testing block when it reads the time limit for the penalty. *)
Theorem HACDDPGAgentParameters_lacks_hac_defaults
    (DDPGAlgorithmParameters : attrs) (DDPGAgentParameters : AgentParameters)
    (EpisodicHRLHindsightExperienceReplayParameters : attrs)
    (EpisodicHindsightExperienceReplayParameters : attrs) :
  let built := HACDDPGAgentParameters DDPGAlgorithmParameters DDPGAgentParameters in
  let top := Preset.top_agent_params DDPGAlgorithmParameters DDPGAgentParameters
               EpisodicHRLHindsightExperienceReplayParameters in
  let bottom := Preset.bottom_agent_params DDPGAlgorithmParameters DDPGAgentParameters
                  EpisodicHindsightExperienceReplayParameters in
  algorithm built = DDPGAlgorithmParameters /\
  HACDDPGAlgorithmParameters DDPGAlgorithmParameters !! "sub_goal_testing_rate"
  = Some (VFloat 0.5) /\
  HACDDPGAlgorithmParameters DDPGAlgorithmParameters !! "time_limit" = Some (VInt 40) /\
  (DDPGAlgorithmParameters !! "sub_goal_testing_rate" = None ->
   DDPGAlgorithmParameters !! "time_limit" = None ->
   forall p : AgentParameters,
     algorithm p ∈ [algorithm built; algorithm top; algorithm bottom] ->
     algorithm p !! "sub_goal_testing_rate" = None /\
     algorithm p !! "time_limit" = None /\
     (forall fresh : Agent,
        HACDDPGAgent_init fresh p = Raise (AttributeError "sub_goal_testing_rate")) /\
     (forall (w : World) (tr : loc) (r : Q),
        ap (self w) = p ->
        Spaces.get_reward_for_goal_and_state (spaces_goal (self w))
          (action (transitions w !!! tr)) (heap w !!! next_state (transitions w !!! tr))
        = Ok (r, false) ->
        test_own_sub_goal tr w = (Raise (AttributeError "time_limit"), w))).
Proof.
  cbn zeta. split; [reflexivity|].
  split; [unfold HACDDPGAlgorithmParameters; by rewrite lookup_insert_ne, lookup_insert_eq|].
  split; [unfold HACDDPGAlgorithmParameters; by rewrite lookup_insert_eq|].
  intros Hrate Htl p Hp.
  assert (algorithm p !! "sub_goal_testing_rate" = None
          /\ algorithm p !! "time_limit" = None) as [Hr Ht].
  { pose proof (top_agent_params_hac_attributes DDPGAlgorithmParameters
                  DDPGAgentParameters EpisodicHRLHindsightExperienceReplayParameters)
      as [Htop1 Htop2].
    pose proof (bottom_agent_params_hac_attributes DDPGAlgorithmParameters
                  DDPGAgentParameters EpisodicHindsightExperienceReplayParameters)
      as [Hbot1 Hbot2].
    rewrite !elem_of_cons, elem_of_nil in Hp.
    destruct Hp as [-> | [-> | [-> | []]]].
    - split; assumption.
    - rewrite Htop1, Htop2. split; assumption.
    - rewrite Hbot1, Hbot2. split; assumption. }
  repeat split; try assumption.
  - intros fresh. unfold HACDDPGAgent_init, DDPGAgent_init. cbn. by rewrite Hr.
  - intros w tr r Hap Hmiss. apply (test_own_sub_goal_no_time_limit w tr r Hmiss).
    by rewrite Hap.
Qed.

Lemma HACDDPGAgentParameters_lacks_hac_defaults_witness :
  algorithm Scenario.notebook_top_params !! "sub_goal_testing_rate" = None /\
  algorithm Scenario.notebook_top_params !! "time_limit" = None /\
  HACDDPGAgent_init Scenario.fresh_agent Scenario.notebook_top_params
  = Raise (AttributeError "sub_goal_testing_rate") /\
  test_own_sub_goal 1%positive Scenario.notebook_world
  = (Raise (AttributeError "time_limit"), Scenario.notebook_world).
Proof.
  destruct (proj2 (proj2 (proj2
              (HACDDPGAgentParameters_lacks_hac_defaults Scenario.ddpg_algorithm
                 Scenario.ddpg_agent_parameters ∅ ∅)))
              eq_refl eq_refl Scenario.notebook_top_params)
    as (Hrate & Htl & Hinit & Hpenalty).
  - apply list_elem_of_further, list_elem_of_here.
  - exact (conj Hrate (conj Htl
             (conj (Hinit Scenario.fresh_agent)
                (Hpenalty Scenario.notebook_world 1%positive (-1)%Q eq_refl eq_refl)))).
Defined.

(** ** Hindsight relabeling *)

Section ConcatImap.

Context {A B : Type}.

(** Blocks of equal length laid end to end: the block of the [i]-th element
    starts at [i * r]. *)
Lemma length_concat_imap (r : nat) (l : list A) (f : nat -> A -> list B) :
  (forall j y, length (f j y) = r) ->
  length (concat (imap f l)) = (r * length l)%nat.
Proof.
  revert f. induction l as [|y l IH]; intros f Hf; cbn; [lia|].
  rewrite length_app, Hf, (IH (f ∘ S)) by (intros j z; apply Hf). lia.
Qed.

Lemma lookup_concat_imap (r : nat) (l : list A) (f : nat -> A -> list B)
    (i k : nat) (x : A) :
  (forall j y, length (f j y) = r) ->
  l !! i = Some x -> (k < r)%nat ->
  concat (imap f l) !! (i * r + k)%nat = f i x !! k.
Proof.
  revert f i. induction l as [|y l IH]; intros f i Hf Hi Hk; [discriminate|].
  cbn. destruct i as [|i]; cbn in Hi.
  - injection Hi as ->. cbn. rewrite lookup_app_l by (rewrite Hf; lia). reflexivity.
  - rewrite lookup_app_r by (rewrite Hf; lia). rewrite Hf.
    replace (S i * r + k - r)%nat with (i * r + k)%nat by lia.
    apply (IH (f ∘ S) i); [intros j z; apply Hf | exact Hi | exact Hk].
Qed.

End ConcatImap.

Section Hindsight.

Import HindsightReplayBuffer.

Variable achieved : dict -> ndarray.
Variable reward_for : ndarray -> dict -> Q * bool.
Variable draw : nat -> nat -> nat.

Lemma length_hindsight_transitions (b : Buffer) (i : nat) (e : Stored) :
  length (hindsight_transitions achieved reward_for draw b i e) = relabel_ratio b.
Proof.
  unfold hindsight_transitions. by rewrite length_map, length_seq.
Qed.

(** A stored transition is itself among its candidates, so a substitute goal
    always exists and comes from its own episode. *)
Lemma future_contains_self (l : list Stored) (i : nat) (e : Stored) :
  l !! i = Some e -> e ∈ future l i e.
Proof.
  intros Hi. unfold future. apply list_elem_of_filter. split; [reflexivity|].
  apply (list_elem_of_lookup_2 _ 0). rewrite lookup_drop, Nat.add_0_r. exact Hi.
Qed.

Lemma substitute_goal_source (l : list Stored) (i k : nat) (e : Stored) :
  l !! i = Some e ->
  exists src : Stored,
    src ∈ l /\ episode src = episode e /\
    substitute_goal achieved draw l i e k = achieved (next_state src).
Proof.
  intros Hi. unfold substitute_goal.
  pose proof (future_contains_self l i e Hi) as Hself.
  set (candidates := future l i e) in *.
  assert (0 < length candidates)%nat as Hlen.
  { destruct candidates; [by apply elem_of_nil in Hself | cbn; lia]. }
  destruct (lookup_lt_is_Some_2 candidates (draw i k mod length candidates))
    as [src Hsrc]; [apply Nat.mod_upper_bound; lia|].
  exists src. rewrite (nth_lookup_Some _ _ _ _ Hsrc).
  apply list_elem_of_lookup_2 in Hsrc. subst candidates. unfold future in Hsrc.
  apply list_elem_of_filter in Hsrc as [Hep Hin].
  repeat split; [|exact Hep].
  apply list_elem_of_lookup in Hin as [j Hj]. rewrite lookup_drop in Hj.
  by eapply list_elem_of_lookup_2.
Qed.

End Hindsight.

(** The relabel ratios the notebook configures: 3 on the top level and 4 on
    the bottom level, whatever else the library's memory parameters carry. *)
Lemma preset_relabel_ratios (ddpg_algorithm : attrs) (ddpg_agent : AgentParameters)
    (hrl_memory her_memory : attrs) (capacity : nat) :
  HindsightReplayBuffer.of_memory
    (memory (Preset.top_agent_params ddpg_algorithm ddpg_agent hrl_memory)) capacity
  = Ok {| HindsightReplayBuffer.transitions := [];
          HindsightReplayBuffer.capacity := capacity;
          HindsightReplayBuffer.relabel_ratio := 3 |} /\
  HindsightReplayBuffer.of_memory
    (memory (Preset.bottom_agent_params ddpg_algorithm ddpg_agent her_memory)) capacity
  = Ok {| HindsightReplayBuffer.transitions := [];
          HindsightReplayBuffer.capacity := capacity;
          HindsightReplayBuffer.relabel_ratio := 4 |}.
Proof.
  unfold HindsightReplayBuffer.of_memory, Preset.top_agent_params,
    Preset.bottom_agent_params. cbn.
  split.
  - rewrite lookup_insert_ne, lookup_insert_ne, lookup_insert_eq by done. reflexivity.
  - rewrite lookup_insert_ne, lookup_insert_ne, lookup_insert_eq by done. reflexivity.
Qed.

(** C5. In a hindsight replay buffer with relabel ratio [r], the consumable set
    is the stored transitions, unchanged and in order, followed by exactly [r]
    relabeled transitions for each of them: the ones of the transition stored
    at position [i] occupy positions [n + i * r] to [n + i * r + r - 1].  Each
    relabeled transition copies the episode, state, action and next state of
    its original, takes as goal a state achieved in the same episode, and has
    the reward and terminal flag that [reward_for] gives for that goal. *)
Theorem hindsight_relabeling
    (achieved : dict -> ndarray) (reward_for : ndarray -> dict -> Q * bool)
    (draw : nat -> nat -> nat)
    (b : HindsightReplayBuffer.Buffer) (i : nat) (e : HindsightReplayBuffer.Stored) :
  HindsightReplayBuffer.transitions b !! i = Some e ->
  let r := HindsightReplayBuffer.relabel_ratio b in
  let n := length (HindsightReplayBuffer.transitions b) in
  let consumable := HindsightReplayBuffer.consumable achieved reward_for draw b in
  let relabeled := HindsightReplayBuffer.hindsight_transitions achieved reward_for draw b i e in
  take n consumable = HindsightReplayBuffer.transitions b /\
  length consumable = (n + r * n)%nat /\
  length relabeled = r /\
  (forall k : nat, (k < r)%nat -> consumable !! (n + (i * r + k))%nat = relabeled !! k) /\
  (forall e' : HindsightReplayBuffer.Stored,
     e' ∈ relabeled ->
     HindsightReplayBuffer.episode e' = HindsightReplayBuffer.episode e /\
     HindsightReplayBuffer.state e' = HindsightReplayBuffer.state e /\
     HindsightReplayBuffer.action e' = HindsightReplayBuffer.action e /\
     HindsightReplayBuffer.next_state e' = HindsightReplayBuffer.next_state e /\
     (exists src : HindsightReplayBuffer.Stored,
        src ∈ HindsightReplayBuffer.transitions b /\
        HindsightReplayBuffer.episode src = HindsightReplayBuffer.episode e /\
        HindsightReplayBuffer.goal e'
        = achieved (HindsightReplayBuffer.next_state src)) /\
     HindsightReplayBuffer.reward e'
     = fst (reward_for (HindsightReplayBuffer.goal e')
              (HindsightReplayBuffer.next_state e')) /\
     HindsightReplayBuffer.terminal e'
     = snd (reward_for (HindsightReplayBuffer.goal e')
              (HindsightReplayBuffer.next_state e'))).
Proof.
  intros Hi. cbn zeta. unfold HindsightReplayBuffer.consumable.
  pose proof (length_hindsight_transitions achieved reward_for draw b) as Hlen.
  split; [apply take_app_length|].
  split.
  { rewrite length_app. unfold HindsightReplayBuffer.relabeled.
    by rewrite (length_concat_imap (HindsightReplayBuffer.relabel_ratio b)). }
  split; [apply Hlen|].
  split.
  { intros k Hk. rewrite lookup_app_r by lia.
    replace (length (HindsightReplayBuffer.transitions b)
             + (i * HindsightReplayBuffer.relabel_ratio b + k)
             - length (HindsightReplayBuffer.transitions b))%nat
      with (i * HindsightReplayBuffer.relabel_ratio b + k)%nat by lia.
    unfold HindsightReplayBuffer.relabeled.
    by apply lookup_concat_imap. }
  intros e' He'. unfold HindsightReplayBuffer.hindsight_transitions in He'.
  apply list_elem_of_fmap in He' as (k & -> & _). cbn.
  repeat split.
  apply (substitute_goal_source achieved draw _ i k e Hi).
Qed.

Lemma hindsight_relabeling_witness :
  let consumable :=
    HindsightReplayBuffer.consumable Scenario.achieved Scenario.reward_for Scenario.draw
      Scenario.buffer in
  let relabeled :=
    HindsightReplayBuffer.hindsight_transitions Scenario.achieved Scenario.reward_for
      Scenario.draw Scenario.buffer 1
      (Scenario.stored 0 [1; 1; 1]%Q [0.5; 0.5; 0.5]%Q) in
  take 3 consumable = HindsightReplayBuffer.transitions Scenario.buffer /\
  length consumable = 12%nat /\
  length relabeled = 3%nat.
Proof.
  pose proof (hindsight_relabeling Scenario.achieved Scenario.reward_for Scenario.draw
                Scenario.buffer 1 (Scenario.stored 0 [1; 1; 1]%Q [0.5; 0.5; 0.5]%Q)
                eq_refl) as (Htake & Hlen & Hr & _).
  exact (conj Htake (conj Hlen Hr)).
Defined.

(** * Further properties of the notebook's code *)

(** ** The reward-shaping method, outcome by outcome *)

(** Result and world of the method in terms of its two blocks. *)
Lemma update_cases (w : World) (tr : loc) :
  update_transition_before_adding_to_replay_buffer tr w
  = let block1 := if is_a_highest_level_agent (ap (self w)) then (Ok tt, w)
                  else deal_with_goal_from_higher_level tr w in
    match block1 with
    | (Raise e, w1) => (Raise e, w1)
    | (Ok _, w1) =>
        if negb (is_a_lowest_level_agent (ap (self w1)))
           && should_test_current_sub_goal (graph_manager w1)
        then match test_own_sub_goal tr w1 with
             | (Ok _, w2) => (Ok tr, w2)
             | (Raise e, w2) => (Raise e, w2)
             end
        else (Ok tr, w1)
    end.
Proof.
  unfold update_transition_before_adding_to_replay_buffer.
  unfold when, gets, mbind, M_bind, mret, M_ret.
  destruct (is_a_highest_level_agent (ap (self w))); cbn [negb].
  - case_if; [|reflexivity].
    destruct (test_own_sub_goal tr w) as [[[]|e] w']; reflexivity.
  - destruct (deal_with_goal_from_higher_level tr w) as [[[]|e] w1]; [|reflexivity].
    case_if; [|reflexivity].
    destruct (test_own_sub_goal tr w1) as [[[]|e] w']; reflexivity.
Qed.

(** The testing block writes neither the dictionaries nor the terminal flag. *)
Lemma test_own_sub_goal_heap (w : World) (tr : loc) :
  heap (snd (test_own_sub_goal tr w)) = heap w.
Proof.
  rewrite test_own_sub_goal_cases.
  destruct (Spaces.get_reward_for_goal_and_state _ _ _) as [[r [|]]|e]; cbn;
    try reflexivity.
  destruct (algorithm _ !! "time_limit") as [tl|]; cbn; [|reflexivity].
  destruct (neg tl); reflexivity.
Qed.

Lemma test_own_sub_goal_game_over (w : World) (tr : loc) :
  game_over (transitions (snd (test_own_sub_goal tr w)) !!! tr)
  = game_over (transitions w !!! tr).
Proof.
  rewrite test_own_sub_goal_cases.
  destruct (Spaces.get_reward_for_goal_and_state _ _ _) as [[r [|]]|e]; cbn;
    try reflexivity.
  destruct (algorithm _ !! "time_limit") as [tl|]; cbn [snd]; [|reflexivity].
  destruct (neg tl); cbn [snd]; [|reflexivity].
  by rewrite penalised_transition.
Qed.

(** Once the goal is attached, it is what both dictionaries hold. *)
Lemma goal_attached_lookup (h : gmap loc dict) (s ns : loc) (g : ndarray) :
  let h1 := <[s := <["desired_goal" := g]> (h !!! s)]> h in
  let h2 := <[ns := <["desired_goal" := g]> (h1 !!! ns)]> h1 in
  (h2 !!! s) !! "desired_goal" = Some g /\ (h2 !!! ns) !! "desired_goal" = Some g.
Proof.
  cbn zeta. split.
  - destruct (decide (ns = s)) as [->|Hne].
    + rewrite lookup_total_insert_eq. apply lookup_insert_eq.
    + rewrite lookup_total_insert_ne by done. rewrite lookup_total_insert_eq.
      apply lookup_insert_eq.
  - rewrite lookup_total_insert_eq. apply lookup_insert_eq.
Qed.

Lemma deal_with_goal_heap (w : World) (tr : loc) :
  heap (snd (deal_with_goal_from_higher_level tr w)) = heap (goal_attached tr w).
Proof.
  rewrite deal_with_goal_from_higher_level_cases.
  destruct (Spaces.distance_from_goal _ _ _) as [d|e]; [|reflexivity].
  destruct (Spaces.get_reward_for_goal_and_state _ _ _) as [[goal_reward reached]|e];
    reflexivity.
Qed.

(** The heap the method leaves on a level that is not the highest. *)
Lemma update_non_top_heap (w : World) (tr : loc) :
  is_a_highest_level_agent (ap (self w)) = false ->
  heap (snd (update_transition_before_adding_to_replay_buffer tr w))
  = heap (goal_attached tr w).
Proof.
  intros Hnt. rewrite update_world, Hnt. cbn beta iota zeta.
  pose proof (deal_with_goal_heap w tr) as Hheap.
  destruct (deal_with_goal_from_higher_level tr w) as [[[]|e] w1]; cbn in Hheap;
    [|exact Hheap].
  case_if; [|exact Hheap]. by rewrite test_own_sub_goal_heap.
Qed.

(** X1. On a level that is not the highest, however the call ends, both state
    dictionaries of the transition hold the goal of the level above under
    [desired_goal] afterwards. *)
Theorem goal_attached_to_both_states (w : World) (tr : loc) :
  is_a_highest_level_agent (ap (self w)) = false ->
  let w' := snd (update_transition_before_adding_to_replay_buffer tr w) in
  let t := transitions w !!! tr in
  (heap w' !!! state t) !! "desired_goal" = Some (current_hrl_goal (self w)) /\
  (heap w' !!! next_state t) !! "desired_goal" = Some (current_hrl_goal (self w)).
Proof.
  intros Hnt. cbn zeta. rewrite (update_non_top_heap w tr Hnt).
  unfold goal_attached. cbn. apply goal_attached_lookup.
Qed.

Lemma goal_attached_to_both_states_witness :
  let w' := snd (update_transition_before_adding_to_replay_buffer 1%positive
                   Cases.blind_world) in
  (heap w' !!! 1%positive) !! "desired_goal" = Some [0; 0; 0]%Q /\
  (heap w' !!! 2%positive) !! "desired_goal" = Some [0; 0; 0]%Q.
Proof.
  apply (goal_attached_to_both_states Cases.blind_world 1%positive). reflexivity.
Defined.

(** X2. On a level that is not the highest, an exception raised by the goal
    space while the goal is being dealt with leaves the method by the same
    exception with every transition as it was: no reward, no terminal flag and
    no penalty is written, even in a testing phase.  The signal has gained the
    distance if it was the reward query that failed. *)
Theorem goal_space_failure_leaves_transitions (w : World) (tr : loc) (e : exn) :
  is_a_highest_level_agent (ap (self w)) = false ->
  let distance :=
    Spaces.distance_from_goal (spaces_goal (self w)) (current_hrl_goal (self w))
      (next_state_with_goal w tr) in
  let answer :=
    Spaces.get_reward_for_goal_and_state (spaces_goal (self w))
      (current_hrl_goal (self w)) (next_state_with_goal w tr) in
  distance = Raise e \/ ((exists d, distance = Ok d) /\ answer = Raise e) ->
  let out := update_transition_before_adding_to_replay_buffer tr w in
  fst out = Raise e /\
  transitions (snd out) = transitions w /\
  distance_from_goal (self (snd out))
  = distance_from_goal (self w) ++ match distance with Ok d => [d] | Raise _ => [] end.
Proof.
  intros Hnt distance answer Hfail. cbn zeta.
  rewrite update_cases, Hnt. cbn beta iota zeta.
  rewrite deal_with_goal_from_higher_level_cases.
  fold distance answer.
  destruct Hfail as [-> | [[d ->] ->]]; cbn.
  - by rewrite app_nil_r.
  - done.
Qed.

Lemma goal_space_failure_leaves_transitions_witness :
  let out := update_transition_before_adding_to_replay_buffer 1%positive
               Cases.blind_world in
  fst out = Raise (KeyError "achieved_goal") /\
  transitions (snd out) = transitions Cases.blind_world /\
  distance_from_goal (self (snd out)) = [].
Proof.
  apply (goal_space_failure_leaves_transitions Cases.blind_world 1%positive
           (KeyError "achieved_goal")).
  - reflexivity.
  - left. vm_compute. reflexivity.
Defined.

(** X3. On a middle level in a testing phase, a failure of the testing block
    (the goal space raising on the emitted subgoal, or a missed subgoal with a
    time limit that is absent or not a number) leaves the method by that
    exception after the goal shaping has been done: the transition keeps the
    goal reward and the shaped terminal flag. *)
Theorem testing_failure_keeps_goal_shaping (w : World) (tr : loc)
    (d : ndarray) (goal_reward : Q) (reached : bool) (e : exn) :
  is_a_highest_level_agent (ap (self w)) = false ->
  is_a_lowest_level_agent (ap (self w)) = false ->
  should_test_current_sub_goal (graph_manager w) = true ->
  Spaces.distance_from_goal (spaces_goal (self w)) (current_hrl_goal (self w))
    (next_state_with_goal w tr) = Ok d ->
  Spaces.get_reward_for_goal_and_state (spaces_goal (self w)) (current_hrl_goal (self w))
    (next_state_with_goal w tr) = Ok (goal_reward, reached) ->
  let own :=
    Spaces.get_reward_for_goal_and_state (spaces_goal (self w))
      (action (transitions w !!! tr)) (next_state_with_goal w tr) in
  let time_limit := algorithm (ap (self w)) !! "time_limit" in
  own = Raise e
  \/ ((exists r, own = Ok (r, false))
      /\ (time_limit = None /\ e = AttributeError "time_limit"
          \/ exists tl, time_limit = Some tl /\ neg tl = Raise e)) ->
  let out := update_transition_before_adding_to_replay_buffer tr w in
  out = (Raise e, goal_shaped d goal_reward reached tr w) /\
  reward (transitions (snd out) !!! tr) = goal_reward /\
  game_over (transitions (snd out) !!! tr) = game_over (transitions w !!! tr) || reached.
Proof.
  intros Hnt Hlow Htest Hd Hr own time_limit Hfail. cbn zeta.
  assert (update_transition_before_adding_to_replay_buffer tr w
          = (Raise e, goal_shaped d goal_reward reached tr w)) as ->.
  { rewrite (update_non_top w tr d goal_reward reached Hnt Hd Hr), Hlow, Htest.
    cbn [negb andb]. rewrite test_own_sub_goal_cases.
    rewrite (goal_shaped_test_query w tr d goal_reward reached). fold own.
    change (algorithm (ap (self (goal_shaped d goal_reward reached tr w))) !! "time_limit")
      with time_limit.
    destruct Hfail as [-> | [[r ->] [[-> ->] | [tl [-> ->]]]]]; reflexivity. }
  cbn [fst snd]. rewrite goal_shaped_transition. repeat split.
Qed.

Lemma testing_failure_keeps_goal_shaping_witness :
  let out := update_transition_before_adding_to_replay_buffer 1%positive
               Cases.unlimited_world in
  out = (Raise TypeError,
         goal_shaped [0.5; 0.5; 0.5]%Q (-1)%Q false 1%positive Cases.unlimited_world) /\
  reward (transitions (snd out) !!! 1%positive) = (-1)%Q /\
  game_over (transitions (snd out) !!! 1%positive) = false.
Proof.
  apply (testing_failure_keeps_goal_shaping Cases.unlimited_world 1%positive
           [0.5; 0.5; 0.5]%Q (-1)%Q false TypeError); try (vm_compute; reflexivity).
  right. split; [exists (-1)%Q; vm_compute; reflexivity|].
  right. exists VNone. split; vm_compute; reflexivity.
Defined.

(** The goal block only ever raises the terminal flag. *)
Lemma deal_with_goal_game_over (w : World) (tr : loc) :
  game_over (transitions w !!! tr) = true ->
  game_over (transitions (snd (deal_with_goal_from_higher_level tr w)) !!! tr) = true.
Proof.
  intros Hover. rewrite deal_with_goal_from_higher_level_cases.
  destruct (Spaces.distance_from_goal _ _ _) as [d|e]; [|exact Hover].
  destruct (Spaces.get_reward_for_goal_and_state _ _ _) as [[goal_reward reached]|e];
    [|exact Hover].
  cbn [snd]. rewrite goal_shaped_transition. cbn. by rewrite Hover.
Qed.

(** X4. The method never clears the terminal flag: a transition that is
    terminal when it is handed in is terminal afterwards, however the call
    ends. *)
Theorem terminal_flag_never_cleared (w : World) (tr : loc) :
  game_over (transitions w !!! tr) = true ->
  game_over (transitions (snd (update_transition_before_adding_to_replay_buffer tr w))
               !!! tr) = true.
Proof.
  intros Hover. rewrite update_world.
  destruct (is_a_highest_level_agent (ap (self w))); cbn beta iota zeta.
  - case_if; [|exact Hover]. by rewrite test_own_sub_goal_game_over.
  - pose proof (deal_with_goal_game_over w tr Hover) as Hdeal.
    destruct (deal_with_goal_from_higher_level tr w) as [[[]|e] w1]; cbn in Hdeal;
      [|exact Hdeal].
    case_if; [|exact Hdeal]. by rewrite test_own_sub_goal_game_over.
Qed.

Lemma terminal_flag_never_cleared_witness :
  game_over (transitions (snd (update_transition_before_adding_to_replay_buffer
                                 1%positive Cases.terminal_world)) !!! 1%positive)
  = true.
Proof.
  apply (terminal_flag_never_cleared Cases.terminal_world 1%positive). reflexivity.
Defined.

(** X5. On the highest level the method writes nothing at all unless a testing
    phase is on and there is a level below: outside a testing phase, and for an
    agent that is at once the highest and the lowest level, it returns the
    transition and leaves the world as it found it. *)
Theorem top_level_outside_testing_is_identity (w : World) (tr : loc) :
  is_a_highest_level_agent (ap (self w)) = true ->
  is_a_lowest_level_agent (ap (self w))
  || negb (should_test_current_sub_goal (graph_manager w)) = true ->
  update_transition_before_adding_to_replay_buffer tr w = (Ok tr, w).
Proof.
  intros Htop Hidle. rewrite (update_top w tr Htop).
  destruct (is_a_lowest_level_agent (ap (self w))),
    (should_test_current_sub_goal (graph_manager w)); try discriminate; reflexivity.
Qed.

Lemma top_level_outside_testing_is_identity_witness :
  update_transition_before_adding_to_replay_buffer 1%positive
    (Scenario.world true true true)
  = (Ok 1%positive, Scenario.world true true true).
Proof.
  apply (top_level_outside_testing_is_identity (Scenario.world true true true)
           1%positive); reflexivity.
Defined.

(** ** Calling the method twice *)

(** Attaching the goal a second time changes no dictionary. *)
Lemma goal_writes_idempotent (h : gmap loc dict) (s ns : loc) (g : ndarray) :
  let h1 := <[s := <["desired_goal" := g]> (h !!! s)]> h in
  let h2 := <[ns := <["desired_goal" := g]> (h1 !!! ns)]> h1 in
  let h3 := <[s := <["desired_goal" := g]> (h2 !!! s)]> h2 in
  <[ns := <["desired_goal" := g]> (h3 !!! ns)]> h3 = h2.
Proof.
  intros h1 h2.
  assert (forall l, l = s \/ l = ns ->
            exists x, h2 !! l = Some x /\ <["desired_goal" := g]> x = x) as Hheld.
  { intros l [-> | ->].
    - destruct (decide (ns = s)) as [Heq|Hne].
      + subst h2. rewrite <- Heq, lookup_insert_eq. eexists. split; [reflexivity|].
        apply insert_insert_eq.
      + subst h2 h1. rewrite lookup_insert_ne, lookup_insert_eq by done.
        eexists. split; [reflexivity|]. apply insert_insert_eq.
    - subst h2. rewrite lookup_insert_eq. eexists. split; [reflexivity|].
      apply insert_insert_eq. }
  assert (<[s := <["desired_goal" := g]> (h2 !!! s)]> h2 = h2) as Hs.
  { destruct (Hheld s (or_introl eq_refl)) as (x & Hx & Hfix).
    rewrite (lookup_total_correct _ _ _ Hx), Hfix. by apply insert_id. }
  cbn zeta. rewrite Hs.
  destruct (Hheld ns (or_intror eq_refl)) as (x & Hx & Hfix).
  rewrite (lookup_total_correct _ _ _ Hx), Hfix. by apply insert_id.
Qed.

Lemma goal_shaped_transitions (w : World) (tr : loc) d goal_reward reached :
  transitions (goal_shaped d goal_reward reached tr w)
  = <[tr := put_game_over (game_over (transitions w !!! tr) || reached)
              (put_reward goal_reward (transitions w !!! tr))]> (transitions w).
Proof.
  unfold goal_shaped. cbn. rewrite lookup_total_insert_eq. apply insert_insert_eq.
Qed.

(** A world that has been through the goal block: it reads like [w] to the
    method, carries the goal in its dictionaries and the shaped terminal flag
    in its transition. *)
Lemma goal_shaped_again (w v : World) (tr : loc) d goal_reward reached (t' : Transition) :
  self v = self (goal_shaped d goal_reward reached tr w) ->
  heap v = heap (goal_shaped d goal_reward reached tr w) ->
  transitions v = <[tr := t']> (transitions w) ->
  state t' = state (transitions w !!! tr) ->
  action t' = action (transitions w !!! tr) ->
  next_state t' = next_state (transitions w !!! tr) ->
  game_over t' = game_over (transitions w !!! tr) || reached ->
  next_state_with_goal v tr = next_state_with_goal w tr /\
  heap (goal_shaped d goal_reward reached tr v) = heap v /\
  transitions (goal_shaped d goal_reward reached tr v)
  = transitions (goal_shaped d goal_reward reached tr w).
Proof.
  intros Hself Hheap Htrans Hs Ha Hns Hover.
  assert (transitions v !!! tr = t') as Ht by (rewrite Htrans; apply lookup_total_insert_eq).
  split; [|split].
  - unfold next_state_with_goal. rewrite Ht, Hns, Hself, Hheap.
    unfold goal_shaped. cbn. rewrite next_state_after_goal_writes.
    apply insert_insert_eq.
  - unfold goal_shaped at 1. cbn. rewrite Ht, Hs, Hns, Hself, Hheap.
    unfold goal_shaped. cbn. apply goal_writes_idempotent.
  - rewrite !goal_shaped_transitions, Ht, Htrans, insert_insert_eq.
    f_equal. unfold put_game_over, put_reward. cbn.
    rewrite Hs, Ha, Hns, Hover. f_equal.
    by rewrite <- orb_assoc, orb_diag.
Qed.

(** The testing block decides by the goal space, the time limit, the
    dictionaries and the transitions alone. *)
Lemma test_own_sub_goal_like (v w : World) (tr : loc) :
  spaces_goal (self v) = spaces_goal (self w) ->
  algorithm (ap (self v)) = algorithm (ap (self w)) ->
  heap v = heap w ->
  transitions v = transitions w ->
  fst (test_own_sub_goal tr v) = fst (test_own_sub_goal tr w) /\
  transitions (snd (test_own_sub_goal tr v)) = transitions (snd (test_own_sub_goal tr w)) /\
  heap (snd (test_own_sub_goal tr v)) = heap v.
Proof.
  intros Hgoals Halg Hheap Htrans.
  rewrite !test_own_sub_goal_cases, Hgoals, Halg, Hheap, Htrans.
  destruct (Spaces.get_reward_for_goal_and_state _ _ _) as [[r [|]]|e]; cbn;
    try by rewrite ?Hheap, ?Htrans.
  destruct (algorithm _ !! "time_limit") as [tl|]; cbn; [|by rewrite ?Hheap, ?Htrans].
  destruct (neg tl); cbn; by rewrite ?Hheap, ?Htrans.
Qed.

Lemma test_own_sub_goal_self (w : World) (tr : loc) :
  self (snd (test_own_sub_goal tr w)) = self w.
Proof.
  rewrite test_own_sub_goal_cases.
  destruct (Spaces.get_reward_for_goal_and_state _ _ _) as [[r [|]]|e]; cbn;
    try reflexivity.
  destruct (algorithm _ !! "time_limit") as [tl|]; cbn; [|reflexivity].
  destruct (neg tl); reflexivity.
Qed.

(** After the goal block, the testing block rewrites at most the reward. *)
Lemma test_after_goal_shaping (w : World) (tr : loc) d goal_reward reached :
  exists t' : Transition,
    transitions (snd (test_own_sub_goal tr (goal_shaped d goal_reward reached tr w)))
    = <[tr := t']> (transitions w) /\
    state t' = state (transitions w !!! tr) /\
    action t' = action (transitions w !!! tr) /\
    next_state t' = next_state (transitions w !!! tr) /\
    game_over t' = game_over (transitions w !!! tr) || reached.
Proof.
  rewrite test_own_sub_goal_cases.
  destruct (Spaces.get_reward_for_goal_and_state _ _ _) as [[r [|]]|e]; cbn [snd];
    try (eexists; split; [apply goal_shaped_transitions | repeat split]).
  destruct (algorithm _ !! "time_limit") as [tl|]; cbn [snd];
    try (eexists; split; [apply goal_shaped_transitions | repeat split]).
  destruct (neg tl) as [p|e]; cbn [snd];
    [|eexists; split; [apply goal_shaped_transitions | repeat split]].
  eexists. split.
  - unfold penalised. cbn [transitions with_transitions].
    rewrite goal_shaped_transitions, lookup_total_insert_eq. apply insert_insert_eq.
  - repeat split.
Qed.

(** A successful call on a level that is not the highest got both answers
    from the goal space. *)
Lemma update_non_top_ok_inv (w : World) (tr : loc) :
  is_a_highest_level_agent (ap (self w)) = false ->
  fst (update_transition_before_adding_to_replay_buffer tr w) = Ok tr ->
  exists d goal_reward reached,
    Spaces.distance_from_goal (spaces_goal (self w)) (current_hrl_goal (self w))
      (next_state_with_goal w tr) = Ok d /\
    Spaces.get_reward_for_goal_and_state (spaces_goal (self w)) (current_hrl_goal (self w))
      (next_state_with_goal w tr) = Ok (goal_reward, reached).
Proof.
  intros Hnt. rewrite update_cases, Hnt. cbn beta iota zeta.
  rewrite deal_with_goal_from_higher_level_cases.
  destruct (Spaces.distance_from_goal _ _ _) as [d|e]; [|discriminate].
  destruct (Spaces.get_reward_for_goal_and_state _ _ _) as [[goal_reward reached]|e];
    [|discriminate].
  intros _. by exists d, goal_reward, reached.
Qed.

(** The method on a world that has already been through the goal block. *)
Lemma update_after_goal_shaping (w v : World) (tr : loc) d goal_reward reached
    (t' : Transition) :
  is_a_highest_level_agent (ap (self w)) = false ->
  Spaces.distance_from_goal (spaces_goal (self w)) (current_hrl_goal (self w))
    (next_state_with_goal w tr) = Ok d ->
  Spaces.get_reward_for_goal_and_state (spaces_goal (self w)) (current_hrl_goal (self w))
    (next_state_with_goal w tr) = Ok (goal_reward, reached) ->
  self v = self (goal_shaped d goal_reward reached tr w) ->
  heap v = heap (goal_shaped d goal_reward reached tr w) ->
  graph_manager v = graph_manager w ->
  transitions v = <[tr := t']> (transitions w) ->
  state t' = state (transitions w !!! tr) ->
  action t' = action (transitions w !!! tr) ->
  next_state t' = next_state (transitions w !!! tr) ->
  game_over t' = game_over (transitions w !!! tr) || reached ->
  let again := goal_shaped d goal_reward reached tr v in
  update_transition_before_adding_to_replay_buffer tr v
  = (if negb (is_a_lowest_level_agent (ap (self w)))
        && should_test_current_sub_goal (graph_manager w)
     then match test_own_sub_goal tr again with
          | (Ok _, w') => (Ok tr, w')
          | (Raise e, w') => (Raise e, w')
          end
     else (Ok tr, again)) /\
  heap again = heap v /\
  transitions again = transitions (goal_shaped d goal_reward reached tr w).
Proof.
  intros Hnt Hd Hr Hself Hheap Hgm Htrans Hs Ha Hns Hover. cbn zeta.
  destruct (goal_shaped_again w v tr d goal_reward reached t'
              Hself Hheap Htrans Hs Ha Hns Hover) as (Hsame & Hheap' & Htrans').
  split; [|split; assumption].
  rewrite (update_non_top v tr d goal_reward reached).
  - by rewrite Hself, Hgm.
  - by rewrite Hself.
  - rewrite Hsame, Hself. exact Hd.
  - rewrite Hsame, Hself. exact Hr.
Qed.

(** X6. Shaping a transition a second time changes nothing more: when a call
    of the method has returned, a second call on the same transition returns
    too and leaves every transition and every dictionary as the first call
    left them.  (Only the agent's signal grows again.) *)
Theorem shaping_twice_is_shaping_once (w : World) (tr : loc) :
  let out1 := update_transition_before_adding_to_replay_buffer tr w in
  let out2 := update_transition_before_adding_to_replay_buffer tr (snd out1) in
  fst out1 = Ok tr ->
  fst out2 = Ok tr /\
  transitions (snd out2) = transitions (snd out1) /\
  heap (snd out2) = heap (snd out1).
Proof.
  cbn zeta. destruct (is_a_highest_level_agent (ap (self w))) eqn:Htop.
  - rewrite (update_top w tr Htop).
    destruct (negb _ && _) eqn:Htesting; cbn [fst snd].
    2:{ intros _. rewrite (update_top w tr Htop), Htesting. repeat split. }
    rewrite test_own_sub_goal_cases.
    destruct (Spaces.get_reward_for_goal_and_state _ _ _) as [[r [|]]|e] eqn:Hown;
      cbn [fst snd]; try discriminate.
    + intros _. rewrite (update_top w tr Htop), Htesting.
      rewrite (test_own_sub_goal_reached w tr r Hown). repeat split.
    + destruct (algorithm _ !! "time_limit") as [tl|] eqn:Htl; cbn [fst snd];
        try discriminate.
      destruct (neg tl) as [p|e] eqn:Hp; cbn [fst snd]; try discriminate.
      intros _.
      assert (Spaces.get_reward_for_goal_and_state (spaces_goal (self (penalised p tr w)))
                (action (transitions (penalised p tr w) !!! tr))
                (heap (penalised p tr w)
                   !!! next_state (transitions (penalised p tr w) !!! tr))
              = Ok (r, false)) as Hown'.
      { rewrite penalised_transition. exact Hown. }
      rewrite (update_top (penalised p tr w) tr Htop).
      change (negb (is_a_lowest_level_agent (ap (self (penalised p tr w))))
              && should_test_current_sub_goal (graph_manager (penalised p tr w)))
        with (negb (is_a_lowest_level_agent (ap (self w)))
              && should_test_current_sub_goal (graph_manager w)).
      rewrite Htesting.
      destruct (as_number tl) as [q|e] eqn:Hq; [|unfold neg in Hp; rewrite Hq in Hp; discriminate].
      assert (p = (- q)%Q) as -> by (unfold neg in Hp; rewrite Hq in Hp; by injection Hp).
      rewrite (test_own_sub_goal_missed (penalised (- q)%Q tr w) tr r q tl Hown' Htl Hq).
      cbn [fst snd]. repeat split.
      unfold penalised. cbn. rewrite lookup_total_insert_eq. apply insert_insert_eq.
  - intros Hok.
    destruct (update_non_top_ok_inv w tr Htop Hok) as (d & goal_reward & reached & Hd & Hr).
    revert Hok.
    rewrite (update_non_top w tr d goal_reward reached Htop Hd Hr).
    set (shaped := goal_shaped d goal_reward reached tr w).
    destruct (negb _ && _) eqn:Htesting.
    + destruct (test_after_goal_shaping w tr d goal_reward reached)
        as (t' & Htrans & Hs & Ha & Hns & Hover).
      pose proof (test_own_sub_goal_self shaped tr) as Hself.
      pose proof (test_own_sub_goal_heap shaped tr) as Hheap.
      pose proof (same_graph_manager _ _ _
                    (touches_only_transition_test_own_sub_goal tr shaped shaped
                       (touches_only_transition_refl tr shaped))) as Hgm.
      fold shaped in Htrans.
      destruct (test_own_sub_goal tr shaped) as [[[]|e] v] eqn:Htest; cbn [fst snd] in *;
        [|discriminate].
      intros _.
      destruct (update_after_goal_shaping w v tr d goal_reward reached t'
                  Htop Hd Hr Hself Hheap Hgm Htrans Hs Ha Hns Hover)
        as (-> & Hheap' & Htrans').
      rewrite Htesting.
      destruct (test_own_sub_goal_like (goal_shaped d goal_reward reached tr v) shaped tr)
        as (Hfst & Htr & Hh).
      * rewrite goal_shaped_self. cbn [spaces_goal put_distance_from_goal].
        by rewrite Hself.
      * rewrite goal_shaped_self. cbn [ap put_distance_from_goal].
        by rewrite Hself.
      * by rewrite Hheap', Hheap.
      * exact Htrans'.
      * rewrite Htest in Hfst, Htr. cbn [fst snd] in Hfst, Htr.
        destruct (test_own_sub_goal tr (goal_shaped d goal_reward reached tr v))
          as [[[]|e] v']; cbn [fst snd] in *; [|discriminate].
        repeat split; [exact Htr | by rewrite Hh].
    + cbn [fst snd]. intros _.
      destruct (update_after_goal_shaping w shaped tr d goal_reward reached
                  (put_game_over (game_over (transitions w !!! tr) || reached)
                     (put_reward goal_reward (transitions w !!! tr)))
                  Htop Hd Hr eq_refl eq_refl eq_refl
                  (goal_shaped_transitions w tr d goal_reward reached)
                  eq_refl eq_refl eq_refl eq_refl)
        as (-> & Hheap' & Htrans').
      rewrite Htesting. cbn [fst snd]. repeat split; assumption.
Qed.

Lemma shaping_twice_is_shaping_once_witness :
  let out1 := update_transition_before_adding_to_replay_buffer 1%positive
                (Scenario.world false false true) in
  let out2 := update_transition_before_adding_to_replay_buffer 1%positive (snd out1) in
  fst out2 = Ok 1%positive /\
  transitions (snd out2) = transitions (snd out1) /\
  heap (snd out2) = heap (snd out1).
Proof.
  apply (shaping_twice_is_shaping_once (Scenario.world false false true) 1%positive).
  vm_compute. reflexivity.
Defined.

(** ** choose_action beyond the training phase *)

(** X7. Outside the TRAIN phase [choose_action] does not touch the exploration
    policy: whatever phase the policy was left in stays, the agent is handed
    to the base class as it is, and the testing flag plays no part. *)
Theorem choose_action_outside_training (ActionInfo : Type)
    (DDPGAgent_choose_action : Agent -> dict -> result ActionInfo)
    (w : World) (curr_state : dict) (r : Q) :
  phase (self w) <> TRAIN ->
  (is_a_highest_level_agent (ap (self w)) = true ->
   as_number (sub_goal_testing_rate (self w)) = Ok r) ->
  let out := choose_action ActionInfo DDPGAgent_choose_action curr_state w in
  self (snd out) = self w /\
  fst out = DDPGAgent_choose_action (self w) curr_state.
Proof.
  intros Hphase Hrate. cbn zeta.
  rewrite (choose_action_world ActionInfo DDPGAgent_choose_action w curr_state r Hrate).
  assert (RunPhase_eqb (phase (self w)) TRAIN = false) as ->
    by (destruct (phase (self w)); done).
  destruct (is_a_highest_level_agent (ap (self w))); split; reflexivity.
Qed.

Lemma choose_action_outside_training_witness :
  let out := choose_action ndarray Scenario.greedy (<["achieved_goal" := [1; 1; 1]%Q]> ∅)
               Cases.evaluating_world in
  self (snd out) = Cases.evaluating_agent /\
  fst out = Ok [0; 0; 0]%Q.
Proof.
  apply (choose_action_outside_training ndarray Scenario.greedy Cases.evaluating_world
           (<["achieved_goal" := [1; 1; 1]%Q]> ∅) 0%Q).
  - discriminate.
  - intros [=].
Defined.

(** X8. On the highest level a testing rate that is not a number makes
    [choose_action] raise at the comparison with the random draw: the draw has
    been consumed, the testing flag and the exploration policy are not written
    and the base class is not asked for an action. *)
Theorem choose_action_rate_not_a_number (ActionInfo : Type)
    (DDPGAgent_choose_action : Agent -> dict -> result ActionInfo)
    (w : World) (curr_state : dict) (e : exn) :
  is_a_highest_level_agent (ap (self w)) = true ->
  as_number (sub_goal_testing_rate (self w)) = Raise e ->
  choose_action ActionInfo DDPGAgent_choose_action curr_state w
  = (Raise e, with_rand_calls S w).
Proof.
  intros Htop Hrate. unfold choose_action. run_monad.
  rewrite Htop. cbn. rewrite Hrate. reflexivity.
Qed.

Lemma choose_action_rate_not_a_number_witness :
  choose_action ndarray Scenario.greedy ∅ Cases.rateless_world
  = (Raise TypeError, with_rand_calls S Cases.rateless_world).
Proof.
  apply (choose_action_rate_not_a_number ndarray Scenario.greedy Cases.rateless_world
           ∅ TypeError); reflexivity.
Defined.

(** X9. The draw of [np.random.rand()] lies in [0, 1), so on the highest level
    a testing rate of 0 or less never starts a testing phase and a rate of 1
    or more always does. *)
Theorem testing_rate_extremes (ActionInfo : Type)
    (DDPGAgent_choose_action : Agent -> dict -> result ActionInfo)
    (w : World) (curr_state : dict) (r : Q) :
  is_a_highest_level_agent (ap (self w)) = true ->
  as_number (sub_goal_testing_rate (self w)) = Ok r ->
  (0 <= rand w (rand_calls w) /\ rand w (rand_calls w) < 1)%Q ->
  let out := choose_action ActionInfo DDPGAgent_choose_action curr_state w in
  ((r <= 0)%Q -> should_test_current_sub_goal (graph_manager (snd out)) = false) /\
  ((1 <= r)%Q -> should_test_current_sub_goal (graph_manager (snd out)) = true).
Proof.
  intros Htop Hrate [Hlow Hhigh]. cbn zeta.
  rewrite (choose_action_world ActionInfo DDPGAgent_choose_action w curr_state r)
    by (intros _; exact Hrate).
  rewrite Htop. cbn [snd].
  assert (forall v : World,
            should_test_current_sub_goal
              (graph_manager
                 (if RunPhase_eqb (phase (self w)) TRAIN
                  then with_self
                         (put_exploration_policy
                            (if should_test_current_sub_goal (graph_manager v)
                             then TEST else phase (self w))) v
                  else v))
            = should_test_current_sub_goal (graph_manager v)) as ->
    by (intros v; destruct (RunPhase_eqb _ _); reflexivity).
  cbn. unfold Qltb. split; intros Hr.
  - apply negb_false_iff, Qle_bool_iff. by apply (Qle_trans _ 0).
  - apply negb_true_iff. destruct (Qle_bool r _) eqn:Hle; [|reflexivity].
    apply Qle_bool_iff in Hle. exfalso.
    apply (Qlt_not_le _ _ Hhigh). by apply (Qle_trans _ r).
Qed.

Lemma testing_rate_extremes_witness :
  should_test_current_sub_goal
    (graph_manager (snd (choose_action ndarray Scenario.greedy ∅
                           Cases.always_testing_world)))
  = true.
Proof.
  destruct (testing_rate_extremes ndarray Scenario.greedy Cases.always_testing_world
              ∅ 1%Q) as [_ Halways].
  - vm_compute; reflexivity.
  - vm_compute; reflexivity.
  - split; [apply Qle_bool_iff | ]; vm_compute; reflexivity.
  - apply Halways. apply Qle_bool_iff. vm_compute; reflexivity.
Defined.



(** ** An agent over the HAC algorithm parameters *)

(** X11. [HACDDPGAlgorithmParameters] inherits every attribute of its base
    class and sets the two HAC ones whatever the base declares.  An agent
    constructed over an instance of it is built without error, reads the
    testing rate 0.5, and writes exactly -40 for a missed subgoal. *)
Theorem agent_over_hac_algorithm_parameters (base : attrs) (p : AgentParameters)
    (fresh : Agent) :
  algorithm p = HACDDPGAlgorithmParameters base ->
  (forall name : string,
     name <> "sub_goal_testing_rate" -> name <> "time_limit" ->
     algorithm p !! name = base !! name) /\
  HACDDPGAgent_init fresh p = Ok (put_sub_goal_testing_rate (VFloat 0.5) (put_ap p fresh)) /\
  (forall (w : World) (tr : loc) (r : Q),
     ap (self w) = p ->
     Spaces.get_reward_for_goal_and_state (spaces_goal (self w))
       (action (transitions w !!! tr)) (heap w !!! next_state (transitions w !!! tr))
     = Ok (r, false) ->
     test_own_sub_goal tr w = (Ok tt, penalised (- inject_Z 40)%Q tr w)).
Proof.
  intros Halg. split; [|split].
  - intros name Hrate Htl. rewrite Halg. unfold HACDDPGAlgorithmParameters.
    by rewrite !lookup_insert_ne.
  - unfold HACDDPGAgent_init, DDPGAgent_init. cbn. rewrite Halg.
    unfold HACDDPGAlgorithmParameters.
    by rewrite lookup_insert_ne, lookup_insert_eq.
  - intros w tr r Hap Hmiss.
    apply (test_own_sub_goal_missed w tr r (inject_Z 40) (VInt 40) Hmiss); [|reflexivity].
    rewrite Hap, Halg. unfold HACDDPGAlgorithmParameters. apply lookup_insert_eq.
Qed.

Lemma agent_over_hac_algorithm_parameters_witness :
  algorithm (Scenario.level_params true false) !! "rate_for_copying_weights_to_target"
  = Some (VFloat 0.001) /\
  HACDDPGAgent_init Scenario.fresh_agent (Scenario.level_params true false)
  = Ok (Scenario.agent true false) /\
  test_own_sub_goal 1%positive (Scenario.world true false true)
  = (Ok tt, penalised (- inject_Z 40)%Q 1%positive (Scenario.world true false true)).
Proof.
  destruct (agent_over_hac_algorithm_parameters Scenario.ddpg_algorithm
              (Scenario.level_params true false) Scenario.fresh_agent eq_refl)
    as (Hinherit & Hinit & Hpenalty).
  split; [|split].
  - rewrite Hinherit by discriminate. vm_compute; reflexivity.
  - exact Hinit.
  - apply (Hpenalty _ _ (-1)%Q); vm_compute; reflexivity.
Defined.

(** ** Runs of the hierarchy *)

Section Runs.

Variable ActionInfo : Type.
Variable DDPGAgent_choose_action : Agent -> dict -> result ActionInfo.

Let step := perform ActionInfo DDPGAgent_choose_action.
Let steps := run ActionInfo DDPGAgent_choose_action.




Lemma perform_parameters (c : Call) (h : Hierarchy) :
  ap <$> levels (step c h) = ap <$> levels h.
Proof.
  destruct (levels h !! level_of c) as [a|] eqn:Hlv;
    [|subst step; by rewrite perform_no_level].
  destruct (perform_levels ActionInfo DDPGAgent_choose_action c h a Hlv)
    as (a' & Hlevels & Hap).
  subst step. rewrite Hlevels, list_fmap_insert, Hap.
  apply list_insert_id. by rewrite list_lookup_fmap, Hlv.
Qed.

End Runs.


(** X13. No run of the hierarchy changes the parameters of any level or the
    number of levels: the two methods read [self.ap] and never write it. *)
Theorem run_keeps_agent_parameters (ActionInfo : Type)
    (DDPGAgent_choose_action : Agent -> dict -> result ActionInfo)
    (cs : list Call) (h : Hierarchy) :
  ap <$> levels (run ActionInfo DDPGAgent_choose_action cs h) = ap <$> levels h /\
  length (levels (run ActionInfo DDPGAgent_choose_action cs h)) = length (levels h).
Proof.
  assert (ap <$> levels (run ActionInfo DDPGAgent_choose_action cs h) = ap <$> levels h)
    as Hap.
  { revert h. induction cs as [|c cs IH]; intros h; [reflexivity|].
    cbn [run]. by rewrite IH, perform_parameters. }
  split; [exact Hap|].
  apply (f_equal length) in Hap. by rewrite !length_fmap in Hap.
Qed.

(** X14. A decision of the highest level reaches the level below: after the
    top level's [choose_action], a [choose_action] of a lower level in the
    TRAIN phase sets its exploration policy to TEST exactly when the top
    level's draw was below its testing rate, and to TRAIN otherwise. *)
Theorem testing_decision_reaches_lower_level (ActionInfo : Type)
    (DDPGAgent_choose_action : Agent -> dict -> result ActionInfo)
    (h : Hierarchy) (i j : nat) (top low : Agent) (s_top s_low : dict) (r : Q) :
  levels h !! i = Some top ->
  levels h !! j = Some low ->
  i <> j ->
  is_a_highest_level_agent (ap top) = true ->
  as_number (sub_goal_testing_rate top) = Ok r ->
  is_a_highest_level_agent (ap low) = false ->
  phase low = TRAIN ->
  let testing := Qltb (generator h (generator_calls h)) r in
  let h' := run ActionInfo DDPGAgent_choose_action
              [ChooseAction i s_top; ChooseAction j s_low] h in
  should_test_current_sub_goal (manager h') = testing /\
  levels h' !! j
  = Some (put_exploration_policy (if testing then TEST else TRAIN) low).
Proof.
  intros Hi Hj Hne Htop Hrate Hlow Hphase. cbn zeta. cbn [run].
  set (h1 := perform ActionInfo DDPGAgent_choose_action (ChooseAction i s_top) h).
  assert (manager h1
          = {| should_test_current_sub_goal := Qltb (generator h (generator_calls h)) r |}
          /\ levels h1 !! j = Some low) as [Hm1 Hj1].
  { subst h1. unfold perform. cbn [level_of]. rewrite Hi.
    rewrite (choose_action_world ActionInfo DDPGAgent_choose_action (enter h top) s_top r)
      by (intros _; exact Hrate).
    cbn [snd enter self ap]. rewrite Htop. split.
    - case_if; reflexivity.
    - cbn [leave levels]. by rewrite list_lookup_insert_ne. }
  clearbody h1. unfold perform. cbn [level_of]. rewrite Hj1.
  rewrite (choose_action_world ActionInfo DDPGAgent_choose_action (enter h1 low) s_low 0%Q)
    by (cbn; rewrite Hlow; discriminate).
  cbn [snd enter self ap graph_manager]. rewrite Hlow, Hphase. cbn. rewrite Hm1. cbn.
  split; [reflexivity|].
  apply list_lookup_insert_eq. by eapply lookup_lt_Some.
Qed.

Lemma testing_decision_reaches_lower_level_witness :
  let h' := run ndarray Scenario.greedy [ChooseAction 0 ∅; ChooseAction 1 ∅]
              (Scenario.hierarchy false) in
  should_test_current_sub_goal (manager h') = true /\
  levels h' !! 1%nat = Some (put_exploration_policy TEST (Scenario.agent false true)).
Proof.
  apply (testing_decision_reaches_lower_level ndarray Scenario.greedy
           (Scenario.hierarchy false) 0 1 (Scenario.agent true false)
           (Scenario.agent false true) ∅ ∅ 0.5%Q); try reflexivity.
  discriminate.
Defined.

(** ** The import cell *)

(** X15. Running the import cell again adds nothing: extending [sys.path] is
    idempotent. *)
Theorem extend_sys_path_idempotent (module_path : string) (sys_path : list string) :
  extend_sys_path module_path (extend_sys_path module_path sys_path)
  = extend_sys_path module_path sys_path.
Proof.
  unfold extend_sys_path.
  destruct (decide (module_path ∈ sys_path)) as [Hin|Hin].
  - by rewrite decide_True.
  - rewrite decide_True; [reflexivity|].
    apply elem_of_app. right. apply list_elem_of_here.
Qed.

(** X16. The import cell keeps every entry already on [sys.path] at its
    position, appends at most two entries, and leaves [module_path] on the
    path. *)
Theorem extend_sys_path_keeps_entries (module_path : string) (sys_path : list string) :
  let extended := extend_sys_path module_path sys_path in
  sys_path `prefix_of` extended /\
  module_path ∈ extended /\
  (length extended <= length sys_path + 2)%nat.
Proof.
  cbn zeta. unfold extend_sys_path. case_decide as Hin.
  - split; [reflexivity|]. split; [exact Hin | lia].
  - split; [by eexists|]. split.
    + apply elem_of_app. right. apply list_elem_of_here.
    + rewrite length_app. cbn. lia.
Qed.

(** X17. The guard of the import cell looks at [module_path] only: when it is
    already on the path, the [rl_coach] subdirectory is not added, so a path
    that lacked it still lacks it. *)
Theorem extend_sys_path_skips_subdirectory (module_path : string)
    (sys_path : list string) :
  module_path ∈ sys_path ->
  module_path +:+ "/rl_coach" ∉ sys_path ->
  module_path +:+ "/rl_coach" ∉ extend_sys_path module_path sys_path.
Proof.
  intros Hin Hsub. unfold extend_sys_path. by rewrite decide_True.
Qed.

Lemma extend_sys_path_skips_subdirectory_witness :
  "/home/coach" +:+ "/rl_coach" ∉ extend_sys_path "/home/coach" ["/usr/lib"; "/home/coach"].
Proof.
  apply (extend_sys_path_skips_subdirectory "/home/coach" ["/usr/lib"; "/home/coach"]).
  - apply list_elem_of_further, list_elem_of_here.
  - intros Hin. repeat (apply elem_of_cons in Hin as [Hin|Hin]; [discriminate Hin|]).
    by apply elem_of_nil in Hin.
Defined.

(** ** The distance function of the preset *)

Lemma abs_difference_symmetric (a b : ndarray) :
  np_abs (zip_with Qminus a b) = np_abs (zip_with Qminus b a).
Proof.
  unfold np_abs.
  revert b. induction a as [|x a IH]; intros [|y b]; cbn [zip_with map]; try reflexivity.
  by rewrite Qabs_Qminus, IH.
Qed.

Lemma abs_difference_scalar (x : Q) (b : ndarray) :
  np_abs (map (Qminus x) b) = np_abs (map (fun z => z - x)%Q b).
Proof.
  unfold np_abs. induction b as [|y b IH]; cbn [map]; [reflexivity|].
  by rewrite Qabs_Qminus, IH.
Qed.

(** X18. The distance of the preset is symmetric in its two arguments,
    broadcasting and shape errors included. *)
Theorem raw_L1_distance_symmetric (a b : ndarray) :
  Preset.raw_L1_distance a b = Preset.raw_L1_distance b a.
Proof.
  unfold Preset.raw_L1_distance, np_subtract, np_broadcast.
  destruct (decide (length a = length b)) as [Hlen|Hlen].
  - rewrite decide_True by done.
    unfold mbind, result_bind, mret, result_ret.
    by rewrite abs_difference_symmetric.
  - rewrite decide_False by done.
    destruct a as [|x [|x' a]], b as [|y [|y' b]]; cbn [length] in Hlen; try done;
      cbn beta iota; unfold mbind, result_bind, mret, result_ret;
      first [ reflexivity
            | apply (f_equal Ok), abs_difference_scalar
            | symmetry; apply (f_equal Ok), abs_difference_scalar ].
Qed.





(** X20. Arrays of different lengths, neither of length one, cannot be
    compared: the distance raises [ValueError]. *)
Theorem raw_L1_distance_shape_mismatch (goal st : ndarray) :
  length goal <> length st ->
  length goal <> 1%nat -> length st <> 1%nat ->
  Preset.raw_L1_distance goal st = Raise ValueError.
Proof.
  intros Hlen Hg Hs. unfold Preset.raw_L1_distance, np_subtract, np_broadcast.
  rewrite decide_False by done.
  destruct goal as [|x [|x' goal]], st as [|y [|y' st]]; cbn [length] in *; done.
Qed.

Lemma raw_L1_distance_shape_mismatch_witness :
  Preset.raw_L1_distance [0; 0; 0]%Q [1; 1]%Q = Raise ValueError.
Proof.
  apply (raw_L1_distance_shape_mismatch [0; 0; 0]%Q [1; 1]%Q); cbn; lia.
Defined.
